(** * NZ Companies Register: the CDK application and what it builds

    An embedding of the infrastructure declarations under
    [infrastructure/cdk].

    The stacks of the VPC and of the database call the library with
    arguments it takes. Each of their constructs is a record whose fields
    are the keyword arguments the source passes; the constructor,
    [__init__], is a function from its arguments to the constructs it
    stores on [self]; the methods that change a construct after its
    creation ([add_ingress_rule], [Tags.of(self).add], ...) return the
    changed construct. A construct carries its node, its place in the
    construct tree, which tells it from every other construct.

    The stacks of the storage, the security, the compute and the
    monitoring do not get that far: a call of theirs is refused by the
    library, or their module does not load. Their constructors are
    computations that make constructs one after another and can raise; the
    calls are written with the keywords the source passes and checked
    against the parameters the library has.

    The second part states and proves the properties: the security-group
    graph and the parameters of the database, which the code declares, and
    for the other stacks where their constructors stop and what they have
    made by then. *)

From stdpp Require Import base strings gmap list.
From Stdlib Require Import ZArith QArith.
Open Scope Z_scope.
Open Scope string_scope.


(** ** The construct tree *)

(** A construct is identified by its position in the construct tree: the
    ids of its scopes followed by its own id. *)
Definition path := list string.

Definition child (scope : path) (construct_id : string) : path :=
  (scope ++ [construct_id])%list.

(** A string a construct exposes: a literal the declaration gives, or an
    attribute of another construct that only the provider knows
    ([database.cluster_endpoint.hostname], [alb.load_balancer_full_name]). *)
Inductive Str :=
| Lit (s : string)
| Attr (node : path) (attr : string).

#[global] Instance Str_eq_dec : EqDecision Str.
Proof. solve_decision. Defined.

(** A dict literal: the entries are inserted from left to right, so a key
    written twice keeps its last value. *)
Definition dict {V : Type} (entries : list (string * V)) : gmap string V :=
  list_to_map (reverse entries).

Arguments dict : simpl never.

(** [cdk.Duration]: the factory that was called and its amount. *)
Module Duration.
Inductive t :=
| days (n : Z)
| hours (n : Z)
| minutes (n : Z)
| seconds (n : Z).

Definition to_seconds (d : t) : Z :=
  match d with
  | days n => n * 86400
  | hours n => n * 3600
  | minutes n => n * 60
  | seconds n => n
  end.

Definition to_days (d : t) : Z := to_seconds d / 86400.
End Duration.

Inductive RemovalPolicy := RETAIN | DESTROY.

(** [cdk.Environment(account=..., region=...)]. *)
Record Environment := {
  account : option string;
  region : string;
}.

(** [Stack.region]: the region of the environment the stack was given, and
    otherwise an attribute resolved at deployment. *)
Definition stack_region (self : path) (env : option Environment) : Str :=
  match env with
  | Some e => Lit (region e)
  | None => Attr self "region"
  end.

(** [Tags.of(scope).add(key, value)]: the tags of a scope, in the order the
    keys were first added; adding a key again replaces its value. *)
Module Tags.
Definition t := list (string * string).

Fixpoint add (key value : string) (tags : t) : t :=
  match tags with
  | [] => [(key, value)]
  | (k, v) :: rest =>
      if String.eqb k key then (k, value) :: rest
      else (k, v) :: add key value rest
  end.

Definition keys (tags : t) : gset string := list_to_set (tags.*1).
End Tags.

(** ** aws_ec2 *)

Module ec2.
Inductive SubnetType := PUBLIC | PRIVATE_WITH_EGRESS | PRIVATE_ISOLATED.

#[global] Instance SubnetType_eq_dec : EqDecision SubnetType.
Proof. solve_decision. Defined.

Module SubnetConfiguration.
Record t := {
  name : string;
  subnet_type : SubnetType;
  cidr_mask : Z;
}.
End SubnetConfiguration.

Module SubnetSelection.
Record t := { subnet_type : SubnetType }.
End SubnetSelection.

Inductive FlowLogDestination := to_cloud_watch_logs.
Inductive FlowLogTrafficType := ACCEPT | ALL | REJECT.

Module FlowLog.
Record t := {
  id : string;
  destination : FlowLogDestination;
  traffic_type : FlowLogTrafficType;
}.
End FlowLog.

Module Vpc.
Record t := {
  node : path;
  vpc_name : string;
  max_azs : Z;
  subnet_configuration : list SubnetConfiguration.t;
  enable_dns_hostnames : bool;
  enable_dns_support : bool;
  (* filled by [add_flow_log] *)
  flow_logs : list FlowLog.t;
}.

Definition add_flow_log (vpc : t) (id : string)
    (destination : FlowLogDestination) (traffic_type : FlowLogTrafficType) : t :=
  {| node := node vpc;
     vpc_name := vpc_name vpc;
     max_azs := max_azs vpc;
     subnet_configuration := subnet_configuration vpc;
     enable_dns_hostnames := enable_dns_hostnames vpc;
     enable_dns_support := enable_dns_support vpc;
     flow_logs := (flow_logs vpc ++
       [{| FlowLog.id := id;
           FlowLog.destination := destination;
           FlowLog.traffic_type := traffic_type |}])%list |}.

(** [vpc.vpc_default_security_group]: the id of the group the provider
    creates with the VPC. *)
Definition vpc_default_security_group (vpc : t) : Str :=
  Attr (node vpc) "vpc_default_security_group".

(** The subnet groups of the VPC that a [SubnetSelection] by type picks. *)
Definition select_subnets (vpc : t) (sel : SubnetSelection.t)
    : list SubnetConfiguration.t :=
  List.filter
    (fun c => bool_decide
       (SubnetConfiguration.subnet_type c = SubnetSelection.subnet_type sel))
    (subnet_configuration vpc).
End Vpc.

Inductive InstanceClass := T3 | M5 | R5 | R6G.
Inductive InstanceSize := MICRO | SMALL | MEDIUM | LARGE | XLARGE.

(** [InstanceType.of(instance_class, instance_size)]. *)
Module InstanceType.
Record t := {
  instance_class : InstanceClass;
  instance_size : InstanceSize;
}.

Definition of_ (instance_class : InstanceClass) (instance_size : InstanceSize) : t :=
  {| instance_class := instance_class; instance_size := instance_size |}.
End InstanceType.

Inductive Protocol := TCP | UDP.

Module Port.
Record t := {
  protocol : Protocol;
  from_port : Z;
  to_port : Z;
}.

Definition tcp (port : Z) : t :=
  {| protocol := TCP; from_port := port; to_port := port |}.
End Port.

(** What an ingress rule accepts traffic from: [Peer.any_ipv4()], or
    another security group, named by its node. *)
Module Peer.
Inductive t :=
| any_ipv4
| security_group (node : path).

#[global] Instance eq_dec : EqDecision t.
Proof. solve_decision. Defined.
End Peer.

Module IngressRule.
Record t := {
  peer : Peer.t;
  connection : Port.t;
  description : string;
}.
End IngressRule.

Module SecurityGroup.
Record t := {
  node : path;
  vpc : Vpc.t;
  description : string;
  security_group_name : string;
  (* filled by [add_ingress_rule] *)
  ingress : list IngressRule.t;
}.

Definition add_ingress_rule (sg : t) (peer : Peer.t) (connection : Port.t)
    (description : string) : t :=
  {| node := node sg;
     vpc := vpc sg;
     description := SecurityGroup.description sg;
     security_group_name := security_group_name sg;
     ingress := (ingress sg ++
       [{| IngressRule.peer := peer;
           IngressRule.connection := connection;
           IngressRule.description := description |}])%list |}.

(** A security group passed where a peer is expected. *)
Definition as_peer (sg : t) : Peer.t := Peer.security_group (node sg).
End SecurityGroup.
End ec2.

(** ** stacks/vpc_stack.py *)

Module VpcStack.
Record t := {
  node : path;
  env : option Environment;
  vpc : ec2.Vpc.t;
  alb_security_group : ec2.SecurityGroup.t;
  ecs_security_group : ec2.SecurityGroup.t;
  database_security_group : ec2.SecurityGroup.t;
  tags : Tags.t;
}.

Definition __init__ (scope : path) (construct_id : string)
    (env : option Environment) : t :=
  let self := child scope construct_id in
  (* VPC with public and private subnets across 3 AZs *)
  let vpc :=
    {| ec2.Vpc.node := child self "NzCompaniesVpc";
       ec2.Vpc.vpc_name := "nz-companies-register-vpc";
       ec2.Vpc.max_azs := 3;
       ec2.Vpc.subnet_configuration :=
         [ {| ec2.SubnetConfiguration.name := "Public";
              ec2.SubnetConfiguration.subnet_type := ec2.PUBLIC;
              ec2.SubnetConfiguration.cidr_mask := 24 |};
           {| ec2.SubnetConfiguration.name := "Private";
              ec2.SubnetConfiguration.subnet_type := ec2.PRIVATE_WITH_EGRESS;
              ec2.SubnetConfiguration.cidr_mask := 24 |};
           {| ec2.SubnetConfiguration.name := "Database";
              ec2.SubnetConfiguration.subnet_type := ec2.PRIVATE_ISOLATED;
              ec2.SubnetConfiguration.cidr_mask := 24 |} ];
       ec2.Vpc.enable_dns_hostnames := true;
       ec2.Vpc.enable_dns_support := true;
       ec2.Vpc.flow_logs := [] |} in
  (* VPC Flow Logs for security monitoring *)
  let vpc :=
    ec2.Vpc.add_flow_log vpc "FlowLogCloudWatch"
      ec2.to_cloud_watch_logs ec2.ALL in
  (* Security Groups *)
  let alb_security_group :=
    {| ec2.SecurityGroup.node := child self "AlbSecurityGroup";
       ec2.SecurityGroup.vpc := vpc;
       ec2.SecurityGroup.description :=
         "Security group for Application Load Balancer";
       ec2.SecurityGroup.security_group_name := "nz-companies-alb-sg";
       ec2.SecurityGroup.ingress := [] |} in
  let alb_security_group :=
    ec2.SecurityGroup.add_ingress_rule alb_security_group
      ec2.Peer.any_ipv4 (ec2.Port.tcp 80) "Allow HTTP from internet" in
  let alb_security_group :=
    ec2.SecurityGroup.add_ingress_rule alb_security_group
      ec2.Peer.any_ipv4 (ec2.Port.tcp 443) "Allow HTTPS from internet" in
  let ecs_security_group :=
    {| ec2.SecurityGroup.node := child self "EcsSecurityGroup";
       ec2.SecurityGroup.vpc := vpc;
       ec2.SecurityGroup.description := "Security group for ECS tasks";
       ec2.SecurityGroup.security_group_name := "nz-companies-ecs-sg";
       ec2.SecurityGroup.ingress := [] |} in
  let ecs_security_group :=
    ec2.SecurityGroup.add_ingress_rule ecs_security_group
      (ec2.SecurityGroup.as_peer alb_security_group)
      (ec2.Port.tcp 8080) "Allow traffic from ALB" in
  let database_security_group :=
    {| ec2.SecurityGroup.node := child self "DatabaseSecurityGroup";
       ec2.SecurityGroup.vpc := vpc;
       ec2.SecurityGroup.description := "Security group for RDS database";
       ec2.SecurityGroup.security_group_name := "nz-companies-db-sg";
       ec2.SecurityGroup.ingress := [] |} in
  let database_security_group :=
    ec2.SecurityGroup.add_ingress_rule database_security_group
      (ec2.SecurityGroup.as_peer ecs_security_group)
      (ec2.Port.tcp 5432) "Allow PostgreSQL from ECS" in
  (* Add tags *)
  let tags := Tags.add "Project" "NZ Companies Register" [] in
  let tags := Tags.add "Environment" "Production" tags in
  let tags := Tags.add "Component" "Networking" tags in
  {| node := self;
     env := env;
     vpc := vpc;
     alb_security_group := alb_security_group;
     ecs_security_group := ecs_security_group;
     database_security_group := database_security_group;
     tags := tags |}.

(** The security groups the stack declares. *)
Definition security_groups (s : t) : list ec2.SecurityGroup.t :=
  [alb_security_group s; ecs_security_group s; database_security_group s].
End VpcStack.


(** ** aws_secretsmanager *)

(** The double quote character, for the JSON templates of the secrets. *)
Definition dquote : string := String (Ascii.ascii_of_nat 34) EmptyString.
Definition quoted (s : string) : string := dquote ++ s ++ dquote.

Module secretsmanager.
Module SecretStringGenerator.
Record t := {
  secret_string_template : string;
  generate_string_key : string;
  exclude_characters : string;
  password_length : Z;
}.
End SecretStringGenerator.

Module Secret.
Record t := {
  node : path;
  secret_name : string;
  description : string;
  generate_secret_string : SecretStringGenerator.t;
}.
End Secret.
End secretsmanager.

(** ** aws_rds *)

Module rds.
Inductive AuroraPostgresEngineVersion := VER_14_6 | VER_15_4.

(** [DatabaseClusterEngine.aurora_postgres(version=...)] and its sibling. *)
Inductive DatabaseClusterEngine :=
| aurora_mysql
| aurora_postgres (version : AuroraPostgresEngineVersion).

(** [Credentials.from_secret(secret)]. *)
Inductive Credentials :=
| from_secret (secret : secretsmanager.Secret.t).

Module SubnetGroup.
Record t := {
  node : path;
  description : string;
  vpc : ec2.Vpc.t;
  subnet_group_name : string;
  vpc_subnets : ec2.SubnetSelection.t;
}.
End SubnetGroup.

Module ParameterGroup.
Record t := {
  node : path;
  engine : DatabaseClusterEngine;
  description : string;
  parameters : gmap string string;
}.
End ParameterGroup.

(** [ClusterInstance.provisioned(id, ...)]. *)
Module ClusterInstance.
Record t := {
  id : string;
  instance_type : ec2.InstanceType.t;
  publicly_accessible : bool;
  auto_minor_version_upgrade : bool;
  allow_major_version_upgrade : bool;
  enable_performance_insights : bool;
  parameter_group : ParameterGroup.t;
}.
End ClusterInstance.

Module BackupProps.
Record t := {
  retention : Duration.t;
  preferred_window : string;
}.
End BackupProps.

Module DatabaseCluster.
Record t := {
  node : path;
  cluster_identifier : string;
  engine : DatabaseClusterEngine;
  credentials : Credentials;
  default_database_name : string;
  vpc : ec2.Vpc.t;
  subnet_group : SubnetGroup.t;
  parameter_group : ParameterGroup.t;
  writer : ClusterInstance.t;
  readers : list ClusterInstance.t;
  backup : BackupProps.t;
  preferred_maintenance_window : string;
  storage_encrypted : bool;
  monitoring_interval : Duration.t;
  cloudwatch_logs_exports : list string;
  deletion_protection : bool;
  removal_policy : RemovalPolicy;
}.

(** [database.cluster_endpoint.hostname], known once the cluster exists. *)
Definition cluster_endpoint_hostname (c : t) : Str :=
  Attr (node c) "cluster_endpoint.hostname".

(** [database.secret]: the attachment of the credentials' secret to the
    cluster, a construct of its own below the secret. *)
Definition secret (c : t) : path :=
  match credentials c with
  | from_secret s => child (secretsmanager.Secret.node s) "Attachment"
  end.

(** The writer followed by the readers. *)
Definition instances (c : t) : list ClusterInstance.t :=
  writer c :: readers c.
End DatabaseCluster.
End rds.

(** ** aws_dynamodb *)

Module dynamodb.
Inductive AttributeType := BINARY | NUMBER | STRING.
Inductive BillingMode := PAY_PER_REQUEST | PROVISIONED.
Inductive TableEncryption := DEFAULT | CUSTOMER_MANAGED | AWS_MANAGED.

Module Attribute.
Record t := {
  name : string;
  type : AttributeType;
}.
End Attribute.

Module GlobalSecondaryIndex.
Record t := {
  index_name : string;
  partition_key : Attribute.t;
  sort_key : Attribute.t;
}.
End GlobalSecondaryIndex.

Module Table.
Record t := {
  node : path;
  table_name : string;
  partition_key : Attribute.t;
  sort_key : Attribute.t;
  billing_mode : BillingMode;
  encryption : TableEncryption;
  point_in_time_recovery : bool;
  removal_policy : RemovalPolicy;
  (* filled by [add_global_secondary_index] *)
  global_secondary_indexes : list GlobalSecondaryIndex.t;
}.

Definition add_global_secondary_index (tbl : t) (index_name : string)
    (partition_key sort_key : Attribute.t) : t :=
  {| node := node tbl;
     table_name := table_name tbl;
     partition_key := Table.partition_key tbl;
     sort_key := Table.sort_key tbl;
     billing_mode := billing_mode tbl;
     encryption := encryption tbl;
     point_in_time_recovery := point_in_time_recovery tbl;
     removal_policy := removal_policy tbl;
     global_secondary_indexes := (global_secondary_indexes tbl ++
       [{| GlobalSecondaryIndex.index_name := index_name;
           GlobalSecondaryIndex.partition_key := partition_key;
           GlobalSecondaryIndex.sort_key := sort_key |}])%list |}.
End Table.
End dynamodb.

(** ** stacks/database_stack.py *)

Module DatabaseStack.
Record t := {
  node : path;
  env : option Environment;
  database_secret : secretsmanager.Secret.t;
  database : rds.DatabaseCluster.t;
  document_table : dynamodb.Table.t;
  tags : Tags.t;
}.

Definition __init__ (scope : path) (construct_id : string) (vpc : ec2.Vpc.t)
    (env : option Environment) : t :=
  let self := child scope construct_id in
  (* Database credentials secret *)
  let database_secret :=
    {| secretsmanager.Secret.node := child self "DatabaseSecret";
       secretsmanager.Secret.secret_name := "nz-companies-register/database";
       secretsmanager.Secret.description :=
         "Database credentials for NZ Companies Register";
       secretsmanager.Secret.generate_secret_string :=
         {| secretsmanager.SecretStringGenerator.secret_string_template :=
              "{" ++ quoted "username" ++ ": " ++ quoted "postgres" ++ "}";
            secretsmanager.SecretStringGenerator.generate_string_key := "password";
            secretsmanager.SecretStringGenerator.exclude_characters :=
              " " ++ dquote ++ "\/@'";
            secretsmanager.SecretStringGenerator.password_length := 32 |} |} in
  (* Database subnet group *)
  let db_subnet_group :=
    {| rds.SubnetGroup.node := child self "DatabaseSubnetGroup";
       rds.SubnetGroup.description :=
         "Subnet group for NZ Companies Register database";
       rds.SubnetGroup.vpc := vpc;
       rds.SubnetGroup.subnet_group_name := "nz-companies-db-subnet-group";
       rds.SubnetGroup.vpc_subnets :=
         {| ec2.SubnetSelection.subnet_type := ec2.PRIVATE_ISOLATED |} |} in
  (* Database parameter group *)
  let db_parameter_group :=
    {| rds.ParameterGroup.node := child self "DatabaseParameterGroup";
       rds.ParameterGroup.engine := rds.aurora_postgres rds.VER_15_4;
       rds.ParameterGroup.description :=
         "Parameter group for NZ Companies Register database";
       rds.ParameterGroup.parameters :=
         dict [ ("log_statement", "all");
                ("log_min_duration_statement", "1000");
                ("shared_preload_libraries", "pg_stat_statements");
                ("max_connections", "200") ] |} in
  (* Aurora PostgreSQL cluster *)
  let database :=
    {| rds.DatabaseCluster.node := child self "Database";
       rds.DatabaseCluster.cluster_identifier := "nz-companies-register-db";
       rds.DatabaseCluster.engine := rds.aurora_postgres rds.VER_15_4;
       rds.DatabaseCluster.credentials := rds.from_secret database_secret;
       rds.DatabaseCluster.default_database_name := "nz_companies_register";
       rds.DatabaseCluster.vpc := vpc;
       rds.DatabaseCluster.subnet_group := db_subnet_group;
       rds.DatabaseCluster.parameter_group := db_parameter_group;
       rds.DatabaseCluster.writer :=
         {| rds.ClusterInstance.id := "Writer";
            rds.ClusterInstance.instance_type :=
              ec2.InstanceType.of_ ec2.R6G ec2.LARGE;
            rds.ClusterInstance.publicly_accessible := false;
            rds.ClusterInstance.auto_minor_version_upgrade := true;
            rds.ClusterInstance.allow_major_version_upgrade := false;
            rds.ClusterInstance.enable_performance_insights := true;
            rds.ClusterInstance.parameter_group := db_parameter_group |};
       rds.DatabaseCluster.readers :=
         [ {| rds.ClusterInstance.id := "Reader1";
              rds.ClusterInstance.instance_type :=
                ec2.InstanceType.of_ ec2.R6G ec2.LARGE;
              rds.ClusterInstance.publicly_accessible := false;
              rds.ClusterInstance.auto_minor_version_upgrade := true;
              rds.ClusterInstance.allow_major_version_upgrade := false;
              rds.ClusterInstance.enable_performance_insights := true;
              rds.ClusterInstance.parameter_group := db_parameter_group |} ];
       rds.DatabaseCluster.backup :=
         {| rds.BackupProps.retention := Duration.days 30;
            rds.BackupProps.preferred_window := "03:00-04:00" |};
       rds.DatabaseCluster.preferred_maintenance_window := "sun:04:00-sun:05:00";
       rds.DatabaseCluster.storage_encrypted := true;
       rds.DatabaseCluster.monitoring_interval := Duration.seconds 60;
       rds.DatabaseCluster.cloudwatch_logs_exports := ["postgresql"];
       rds.DatabaseCluster.deletion_protection := true;
       rds.DatabaseCluster.removal_policy := RETAIN |} in
  (* DynamoDB table for document metadata *)
  let document_table :=
    {| dynamodb.Table.node := child self "DocumentTable";
       dynamodb.Table.table_name := "nz-companies-register-documents";
       dynamodb.Table.partition_key :=
         {| dynamodb.Attribute.name := "document_id";
            dynamodb.Attribute.type := dynamodb.STRING |};
       dynamodb.Table.sort_key :=
         {| dynamodb.Attribute.name := "version";
            dynamodb.Attribute.type := dynamodb.STRING |};
       dynamodb.Table.billing_mode := dynamodb.PAY_PER_REQUEST;
       dynamodb.Table.encryption := dynamodb.AWS_MANAGED;
       dynamodb.Table.point_in_time_recovery := true;
       dynamodb.Table.removal_policy := RETAIN;
       dynamodb.Table.global_secondary_indexes := [] |} in
  (* Add GSI for querying by company_id *)
  let document_table :=
    dynamodb.Table.add_global_secondary_index document_table "CompanyIdIndex"
      {| dynamodb.Attribute.name := "company_id";
         dynamodb.Attribute.type := dynamodb.STRING |}
      {| dynamodb.Attribute.name := "created_at";
         dynamodb.Attribute.type := dynamodb.STRING |} in
  (* Add tags *)
  let tags := Tags.add "Project" "NZ Companies Register" [] in
  let tags := Tags.add "Environment" "Production" tags in
  let tags := Tags.add "Component" "Database" tags in
  {| node := self;
     env := env;
     database_secret := database_secret;
     database := database;
     document_table := document_table;
     tags := tags |}.
End DatabaseStack.

(** * Calls into the library

    The constructors of the storage, security, compute and monitoring
    stacks make calls that the library refuses, or live in modules that do
    not load. Their calls are written here as Python makes them: the callee,
    the positional arguments and the keyword arguments, evaluated from left
    to right and then checked against the callee's parameters. A call that
    is refused raises, and what follows it in the constructor does not
    happen. *)

(** ** Values *)

(** The values the stacks pass to the library. An enumeration member and a
    class constant ([s3.StorageClass.GLACIER], [s3.BlockPublicAccess.BLOCK_ALL])
    are a [PyMember]; an object that is no construct ([s3.Transition(...)],
    [iam.ServicePrincipal(...)]) is a [PyObject] of its class with the
    arguments it was made from; a construct is known by its class and its
    node. *)
#[warnings="-register-all"]
Inductive value :=
| PyNone
| PyBool (b : bool)
| PyInt (n : Z)
| PyFloat (q : Q)
| PyStr (s : Str)
| PyDuration (d : Duration.t)
| PyMember (class name : string)
| PyList (items : list value)
| PyDict (entries : list (string * value))
| PyObject (class : string) (fields : list (string * value))
| PyConstruct (class : string) (node : path).

(** The node of a construct. *)
Definition node_of (v : value) : path :=
  match v with
  | PyConstruct _ node => node
  | _ => []
  end.

(** [construct.attribute], for an attribute that the provider decides
    ([key.key_arn], [bucket.bucket_name], [service.service_name]): a
    string that stands for the attribute of that construct. The stacks read
    attributes of constructs only. *)
Definition attribute (v : value) (name : string) : value :=
  PyStr (Attr (node_of v) name).

(** ** Exceptions *)

Inductive refusal :=
| unexpected_keyword (keyword : string)
| wrong_type (argument : string)
| too_many_positional_arguments.

Inductive exception :=
| ImportError (module name : string)
| AttributeError (module name : string)
| TypeError (callee : string) (why : refusal).

Inductive result (A : Type) :=
| Ok (a : A)
| Raise (e : exception).

Arguments Ok {A} a.
Arguments Raise {A} e.

(** ** What a computation makes *)

(** What a constructor does to the construct tree: the constructs it
    makes, each with the arguments it was given, and the methods it calls
    on them, in their order. *)
Inductive event :=
| Created (class : string) (node : path) (arguments : list (string * value))
| Called (target : value) (method : string) (arguments : list (string * value)).

Definition tree := list event.

(** A computation that adds to the construct tree and returns or raises.
    What was made before an exception stays made. *)
Definition M (A : Type) : Type := tree * result A.

#[global] Instance M_ret : MRet M := λ A a, ([], Ok a).

#[global] Instance M_bind : MBind M := λ A B f m,
  match m with
  | (t, Ok a) => let '(t', r) := f a in ((t ++ t')%list, r)
  | (t, Raise e) => (t, Raise e)
  end.

Definition raise {A : Type} (e : exception) : M A := ([], Raise e).

Definition emit (e : event) : M unit := ([e], Ok ()).

Definition lift {A : Type} (r : result A) : M A := ([], r).

(** The constructs made. *)
Definition created (t : tree) : list (string * path) :=
  omap (λ e, match e with
             | Created class node _ => Some (class, node)
             | Called _ _ _ => None
             end) t.

(** ** Expressions *)

(** An argument expression: it is evaluated when the call is made. *)
Definition expr : Type := M value.

Definition var (v : value) : expr := mret v.
Definition boolean (b : bool) : expr := mret (PyBool b).
Definition int (n : Z) : expr := mret (PyInt n).
Definition float (q : Q) : expr := mret (PyFloat q).
Definition str (s : string) : expr := mret (PyStr (Lit s)).
Definition token (s : Str) : expr := mret (PyStr s).
Definition duration (d : Duration.t) : expr := mret (PyDuration d).
Definition member (class name : string) : expr := mret (PyMember class name).

(** Arguments are evaluated from left to right. *)
Fixpoint values (es : list expr) : M (list value) :=
  match es with
  | [] => mret []
  | e :: es => v ← e; vs ← values es; mret (v :: vs)
  end.

Fixpoint keywords (kws : list (string * expr)) : M (list (string * value)) :=
  match kws with
  | [] => mret []
  | (k, e) :: kws => v ← e; kvs ← keywords kws; mret ((k, v) :: kvs)
  end.

Definition list_ (es : list expr) : expr := vs ← values es; mret (PyList vs).
Definition dict_ (kws : list (string * expr)) : expr :=
  kvs ← keywords kws; mret (PyDict kvs).

(** ** Parameters and their types *)

Inductive type :=
| Bool
| Number
| Text
| Duration_
| Enum (class : string)
| ListOf (t : type)
| DictOf (t : type)
| InstanceOf (classes : list string).

(** The library checks the type of every argument when a call is made. *)
Fixpoint has_type (t : type) (v : value) : bool :=
  match t, v with
  | Bool, PyBool _ => true
  | Number, PyInt _ => true
  | Number, PyFloat _ => true
  | Text, PyStr _ => true
  | Duration_, PyDuration _ => true
  | Enum class, PyMember class' _ => String.eqb class class'
  | ListOf t, PyList items => forallb (has_type t) items
  | DictOf t, PyDict entries => forallb (λ kv, has_type t kv.2) entries
  | InstanceOf classes, PyObject class _ => existsb (String.eqb class) classes
  | InstanceOf classes, PyConstruct class _ => existsb (String.eqb class) classes
  | _, _ => false
  end.

(** The parameters of a callee: those that can be given by position, in
    their order, those that are keyword-only, and the type of the further
    positional arguments of a callee that takes any number of them. *)
Record signature := {
  positional : list (string * type);
  keyword_only : list (string * type);
  variadic : option type;
}.

Definition parameters (sig : signature) : list (string * type) :=
  (positional sig ++ keyword_only sig)%list.

Definition argument_of (k : string) {A : Type} (l : list (string * A)) : option A :=
  snd <$> List.find (λ kv, String.eqb k kv.1) l.

(** Positional arguments are bound to the positional parameters in their
    order; the further ones go to the variadic parameter, if there is one. *)
Fixpoint bind_positional (params : list (string * type)) (rest : option type)
    (vs : list value) : option (list (string * value)) :=
  match vs, params with
  | [], _ => Some []
  | v :: vs, (name, _) :: params =>
      ((name, v) ::.) <$> bind_positional params rest vs
  | v :: vs, [] =>
      match rest with
      | Some _ => (("*", v) ::.) <$> bind_positional [] rest vs
      | None => None
      end
  end.

(** The first keyword given that is no parameter of the callee. *)
Definition unexpected (sig : signature) (kvs : list (string * value))
    : option string :=
  fst <$>
    List.find
      (λ kv, negb (bool_decide (is_Some (argument_of kv.1 (parameters sig)))))
      kvs.

(** The first argument, in the order of the parameters and then of the
    further positional arguments, whose value is not of the parameter's
    type. *)
Definition ill_typed (sig : signature) (bound : list (string * value))
    : option string :=
  let of_parameter :=
    List.find
      (λ kt, match argument_of kt.1 bound with
             | Some v => negb (has_type kt.2 v)
             | None => false
             end)
      (parameters sig) in
  let of_rest :=
    match variadic sig with
    | Some t =>
        List.find
          (λ kv, negb (bool_decide (is_Some (argument_of kv.1 (parameters sig)))) &&
                 negb (has_type t kv.2))
          bound
    | None => None
    end in
  match of_parameter with
  | Some kt => Some kt.1
  | None => fst <$> of_rest
  end.

(** Binding the arguments of a call: a keyword that is no parameter is
    refused before any type is checked. *)
Definition bind_arguments (callee : string) (sig : signature)
    (vs : list value) (kvs : list (string * value))
    : result (list (string * value)) :=
  match bind_positional (positional sig) (variadic sig) vs with
  | None => Raise (TypeError callee too_many_positional_arguments)
  | Some bound =>
      match unexpected sig kvs with
      | Some k => Raise (TypeError callee (unexpected_keyword k))
      | None =>
          let bound := (bound ++ kvs)%list in
          match ill_typed sig bound with
          | Some k => Raise (TypeError callee (wrong_type k))
          | None => Ok bound
          end
      end
  end.

(** A call: the arguments are evaluated, then bound. *)
Definition call (callee : string) (sig : signature)
    (args : list expr) (kwargs : list (string * expr))
    : M (list (string * value)) :=
  vs ← values args;
  kvs ← keywords kwargs;
  lift (bind_arguments callee sig vs kvs).

(** A call that makes an object that is no construct. *)
Definition make (class : string) (sig : signature)
    (args : list expr) (kwargs : list (string * expr)) : expr :=
  bound ← call class sig args kwargs;
  mret (PyObject class bound).

(** [Class(scope, id, **kwargs)]: a call that adds a construct to the tree. *)
Definition new (class : string) (keyword_only : list (string * type))
    (scope : path) (id : string) (kwargs : list (string * expr)) : expr :=
  bound ← call class {| positional := []; keyword_only := keyword_only;
                        variadic := None |} [] kwargs;
  emit (Created class (child scope id) bound);;
  mret (PyConstruct class (child scope id)).

(** [target.method(...)], for a method that changes its target. *)
Definition invoke (target : value) (method : string) (sig : signature)
    (args : list expr) (kwargs : list (string * expr)) : M unit :=
  bound ← call method sig args kwargs;
  emit (Called target method bound).

(** [target.method(id, ...)], for a method that adds a construct below its
    target and returns it. *)
Definition add (target : value) (class : string)
    (keyword_only : list (string * type)) (id : string)
    (kwargs : list (string * expr)) : expr :=
  new class keyword_only (node_of target) id kwargs.

(** * The library

    Of [aws_cdk], what the four stacks use: the names the package has, and
    the parameters of every class, function and method they call. The
    parameters listed are those the repository passes and the library has,
    together with the library's own parameters where the repository passes
    a keyword the library does not have. A module has the name of the
    library's module; a stack refers to it by the name its import gives
    it. *)

Module aws_cdk.
(** The names [from aws_cdk import ...] finds, among those the repository
    asks for and those it means. The load balancers are in
    [aws_elasticloadbalancingv2]; the package has no [aws_elbv2]. *)
Definition names : list string :=
  [ "App"; "Duration"; "RemovalPolicy"; "Stack"; "Tags";
    "aws_applicationautoscaling"; "aws_cloudwatch"; "aws_cloudwatch_actions";
    "aws_ec2"; "aws_ecr"; "aws_ecs"; "aws_elasticloadbalancingv2"; "aws_iam";
    "aws_kms"; "aws_logs"; "aws_rds"; "aws_s3"; "aws_secretsmanager";
    "aws_sns"; "aws_sns_subscriptions"; "aws_sqs"; "aws_ssm" ].

(** [from aws_cdk import (name, ...)]: the names are looked up in their
    order, and the first that is missing raises. *)
Definition from_import (asked : list string) : result unit :=
  match List.find (λ name, negb (bool_decide (name ∈ names))) asked with
  | Some name => Raise (ImportError "aws_cdk" name)
  | None => Ok ()
  end.

Definition RemovalPolicy : string → expr := member "RemovalPolicy".
End aws_cdk.

(** One import after another. *)
Definition then_ (first second : result unit) : result unit :=
  match first with
  | Ok _ => second
  | Raise e => Raise e
  end.

(** The parameters of a callee whose parameters are all keyword-only. *)
Definition keyword_only_ (params : list (string * type)) : signature :=
  {| positional := []; keyword_only := params; variadic := None |}.

(** The parameters of a callee that takes positional arguments only. *)
Definition positional_ (params : list (string * type)) : signature :=
  {| positional := params; keyword_only := []; variadic := None |}.

(** The parameters of a callee that takes any number of arguments of one
    type. *)
Definition variadic_ (t : type) : signature :=
  {| positional := []; keyword_only := []; variadic := Some t |}.

(** ** Interfaces

    The classes of this repository's constructs that a parameter of an
    interface type takes. *)

Definition IKey : type := InstanceOf [ "aws_kms.Key"; "aws_kms.Alias" ].
Definition IRole : type := InstanceOf [ "aws_iam.Role"; "aws_iam.ImportedRole" ].
Definition IPrincipal : type :=
  InstanceOf [ "aws_iam.ServicePrincipal"; "aws_iam.Role"; "aws_iam.ImportedRole" ].
Definition IManagedPolicy : type := InstanceOf [ "aws_iam.ManagedPolicy" ].
Definition ISecret : type :=
  InstanceOf [ "aws_secretsmanager.Secret";
             "aws_secretsmanager.SecretTargetAttachment" ].
Definition IVpc : type := InstanceOf [ "aws_ec2.Vpc" ].
Definition ISecurityGroup : type := InstanceOf [ "aws_ec2.SecurityGroup" ].
Definition IRepository : type := InstanceOf [ "aws_ecr.Repository" ].
Definition ILogGroup : type := InstanceOf [ "aws_logs.LogGroup" ].
Definition ICluster : type := InstanceOf [ "aws_ecs.Cluster" ].
Definition ITopic : type := InstanceOf [ "aws_sns.Topic" ].
Definition IMetric : type := InstanceOf [ "aws_cloudwatch.Metric" ].
Definition IApplicationTargetGroup : type :=
  InstanceOf [ "aws_elasticloadbalancingv2.ApplicationTargetGroup" ].

(** ** aws_kms *)

Module aws_kms.
Definition Key : path → string → list (string * expr) → expr :=
  new "aws_kms.Key"
    [ ("description", Text); ("enable_key_rotation", Bool);
      ("removal_policy", Enum "RemovalPolicy") ].

Definition Alias : path → string → list (string * expr) → expr :=
  new "aws_kms.Alias"
    [ ("alias_name", Text); ("target_key", IKey);
      ("removal_policy", Enum "RemovalPolicy") ].

(** [key.grant_encrypt_decrypt(grantee)]. *)
Definition grant_encrypt_decrypt (key : value) (args : list expr) : M unit :=
  invoke key "grant_encrypt_decrypt" (positional_ [ ("grantee", IPrincipal) ])
    args [].
End aws_kms.

(** ** aws_s3 *)

Module aws_s3.
Definition BucketEncryption : string → expr := member "aws_s3.BucketEncryption".
Definition BlockPublicAccess : string → expr := member "aws_s3.BlockPublicAccess".
Definition StorageClass : string → expr := member "aws_s3.StorageClass".

(** [transition_after] is a [Duration]. *)
Definition Transition (kwargs : list (string * expr)) : expr :=
  make "aws_s3.Transition"
    (keyword_only_
       [ ("storage_class", Enum "aws_s3.StorageClass");
         ("transition_after", Duration_) ])
    [] kwargs.

(** [expiration] is a [Duration]. *)
Definition LifecycleRule (kwargs : list (string * expr)) : expr :=
  make "aws_s3.LifecycleRule"
    (keyword_only_
       [ ("enabled", Bool); ("expiration", Duration_); ("id", Text);
         ("transitions", ListOf (InstanceOf [ "aws_s3.Transition" ])) ])
    [] kwargs.

Definition Bucket : path → string → list (string * expr) → expr :=
  new "aws_s3.Bucket"
    [ ("block_public_access", Enum "aws_s3.BlockPublicAccess");
      ("bucket_name", Text);
      ("encryption", Enum "aws_s3.BucketEncryption");
      ("encryption_key", IKey);
      ("lifecycle_rules", ListOf (InstanceOf [ "aws_s3.LifecycleRule" ]));
      ("removal_policy", Enum "RemovalPolicy");
      ("versioned", Bool) ].
End aws_s3.

(** ** aws_sqs *)

Module aws_sqs.
Definition QueueEncryption : string → expr := member "aws_sqs.QueueEncryption".

(** The queue takes its visibility timeout and its retention period as
    [visibility_timeout] and [retention_period], both a [Duration]; it has
    no [visibility_timeout_seconds] and no
    [message_retention_period_seconds]. *)
Definition Queue : path → string → list (string * expr) → expr :=
  new "aws_sqs.Queue"
    [ ("encryption", Enum "aws_sqs.QueueEncryption");
      ("encryption_master_key", IKey);
      ("queue_name", Text);
      ("retention_period", Duration_);
      ("visibility_timeout", Duration_) ].
End aws_sqs.

(** ** aws_sns *)

Module aws_sns.
Definition Topic : path → string → list (string * expr) → expr :=
  new "aws_sns.Topic"
    [ ("display_name", Text); ("master_key", IKey); ("topic_name", Text) ].

(** The subscriptions are in [aws_sns_subscriptions]: [aws_sns] has no
    [SqsSubscription], and looking it up raises before any argument is
    evaluated. *)
Definition SqsSubscription (args : list expr) (kwargs : list (string * expr))
    : expr :=
  raise (AttributeError "aws_cdk.aws_sns" "SqsSubscription").

(** [topic.add_subscription(subscription)]. *)
Definition add_subscription (topic : value) (args : list expr) : M unit :=
  invoke topic "add_subscription"
    (positional_
       [ ("topic_subscription",
          InstanceOf [ "aws_sns_subscriptions.SqsSubscription" ]) ])
    args [].
End aws_sns.

(** ** aws_iam *)

Module aws_iam.
Definition Effect : string → expr := member "aws_iam.Effect".

(** [iam.ServicePrincipal(service)]. *)
Definition ServicePrincipal (args : list expr) : expr :=
  make "aws_iam.ServicePrincipal" (positional_ [ ("service", Text) ]) args [].

(** [iam.ManagedPolicy.from_aws_managed_policy_name(managed_policy_name)]. *)
Definition ManagedPolicy_from_aws_managed_policy_name (args : list expr) : expr :=
  make "aws_iam.ManagedPolicy"
    (positional_ [ ("managed_policy_name", Text) ]) args [].

Definition PolicyStatement (kwargs : list (string * expr)) : expr :=
  make "aws_iam.PolicyStatement"
    (keyword_only_
       [ ("actions", ListOf Text); ("effect", Enum "aws_iam.Effect");
         ("resources", ListOf Text) ])
    [] kwargs.

Definition PolicyDocument (kwargs : list (string * expr)) : expr :=
  make "aws_iam.PolicyDocument"
    (keyword_only_
       [ ("statements", ListOf (InstanceOf [ "aws_iam.PolicyStatement" ])) ])
    [] kwargs.

Definition Role : path → string → list (string * expr) → expr :=
  new "aws_iam.Role"
    [ ("assumed_by", IPrincipal); ("description", Text);
      ("managed_policies", ListOf IManagedPolicy); ("role_name", Text) ].

(** [iam.Role.from_role_name(scope, id, role_name)]: a role that exists
    elsewhere, referred to by its name. *)
Definition Role_from_role_name (scope : path) (id : string)
    (args : list expr) : expr :=
  bound ← call "aws_iam.Role.from_role_name"
             (positional_ [ ("role_name", Text) ]) args [];
  emit (Created "aws_iam.ImportedRole" (child scope id) bound);;
  mret (PyConstruct "aws_iam.ImportedRole" (child scope id)).

(** The policy takes its document as [document]; it has no
    [policy_document]. *)
Definition Policy : path → string → list (string * expr) → expr :=
  new "aws_iam.Policy"
    [ ("document", InstanceOf [ "aws_iam.PolicyDocument" ]);
      ("policy_name", Text);
      ("roles", ListOf IRole);
      ("statements", ListOf (InstanceOf [ "aws_iam.PolicyStatement" ])) ].

(** [role.add_managed_policy(policy)]. *)
Definition add_managed_policy (role : value) (args : list expr) : M unit :=
  invoke role "add_managed_policy" (positional_ [ ("policy", IManagedPolicy) ])
    args [].

(** [role.add_to_policy(statement)]. *)
Definition add_to_policy (role : value) (args : list expr) : M unit :=
  invoke role "add_to_policy"
    (positional_ [ ("statement", InstanceOf [ "aws_iam.PolicyStatement" ]) ])
    args [].
End aws_iam.

(** ** aws_secretsmanager, aws_ssm *)

Module aws_secretsmanager.
Definition SecretStringGenerator (kwargs : list (string * expr)) : expr :=
  make "aws_secretsmanager.SecretStringGenerator"
    (keyword_only_
       [ ("exclude_characters", Text); ("generate_string_key", Text);
         ("password_length", Number); ("secret_string_template", Text) ])
    [] kwargs.

Definition Secret : path → string → list (string * expr) → expr :=
  new "aws_secretsmanager.Secret"
    [ ("description", Text);
      ("generate_secret_string",
       InstanceOf [ "aws_secretsmanager.SecretStringGenerator" ]);
      ("secret_name", Text) ].
End aws_secretsmanager.

Module aws_ssm.
Definition StringParameter : path → string → list (string * expr) → expr :=
  new "aws_ssm.StringParameter"
    [ ("description", Text); ("parameter_name", Text); ("string_value", Text) ].
End aws_ssm.

(** ** aws_ec2, aws_ecr, aws_logs *)

Module aws_ec2.
Definition SubnetType : string → expr := member "aws_ec2.SubnetType".

Definition SubnetSelection (kwargs : list (string * expr)) : expr :=
  make "aws_ec2.SubnetSelection"
    (keyword_only_ [ ("subnet_type", Enum "aws_ec2.SubnetType") ]) [] kwargs.
End aws_ec2.

Module aws_ecr.
Definition LifecycleRule (kwargs : list (string * expr)) : expr :=
  make "aws_ecr.LifecycleRule"
    (keyword_only_ [ ("description", Text); ("max_image_count", Number) ])
    [] kwargs.

Definition Repository : path → string → list (string * expr) → expr :=
  new "aws_ecr.Repository"
    [ ("image_scan_on_push", Bool);
      ("lifecycle_rules", ListOf (InstanceOf [ "aws_ecr.LifecycleRule" ]));
      ("repository_name", Text) ].
End aws_ecr.

Module aws_logs.
Definition RetentionDays : string → expr := member "aws_logs.RetentionDays".

Definition LogGroup : path → string → list (string * expr) → expr :=
  new "aws_logs.LogGroup"
    [ ("log_group_name", Text); ("removal_policy", Enum "RemovalPolicy");
      ("retention", Enum "aws_logs.RetentionDays") ].
End aws_logs.

(** ** aws_elasticloadbalancingv2 *)

Module aws_elasticloadbalancingv2.
Definition ApplicationProtocol : string → expr :=
  member "aws_elasticloadbalancingv2.ApplicationProtocol".
Definition TargetType : string → expr :=
  member "aws_elasticloadbalancingv2.TargetType".

(** The balancer takes a security group construct as [security_group]. *)
Definition ApplicationLoadBalancer : path → string → list (string * expr) → expr :=
  new "aws_elasticloadbalancingv2.ApplicationLoadBalancer"
    [ ("internet_facing", Bool); ("load_balancer_name", Text);
      ("security_group", ISecurityGroup); ("vpc", IVpc) ].

Definition HealthCheck (kwargs : list (string * expr)) : expr :=
  make "aws_elasticloadbalancingv2.HealthCheck"
    (keyword_only_
       [ ("enabled", Bool); ("healthy_threshold_count", Number);
         ("interval", Duration_); ("path", Text); ("timeout", Duration_);
         ("unhealthy_threshold_count", Number) ])
    [] kwargs.

Definition ApplicationTargetGroup : path → string → list (string * expr) → expr :=
  new "aws_elasticloadbalancingv2.ApplicationTargetGroup"
    [ ("health_check", InstanceOf [ "aws_elasticloadbalancingv2.HealthCheck" ]);
      ("port", Number);
      ("protocol", Enum "aws_elasticloadbalancingv2.ApplicationProtocol");
      ("target_group_name", Text);
      ("target_type", Enum "aws_elasticloadbalancingv2.TargetType");
      ("vpc", IVpc) ].

(** [ListenerAction.redirect(protocol=..., port=..., permanent=...)]. *)
Definition ListenerAction_redirect (kwargs : list (string * expr)) : expr :=
  make "aws_elasticloadbalancingv2.ListenerAction"
    (keyword_only_ [ ("permanent", Bool); ("port", Text); ("protocol", Text) ])
    [] kwargs.

(** [ListenerAction.fixed_response(status_code, content_type=...,
    message_body=...)]. *)
Definition ListenerAction_fixed_response (kwargs : list (string * expr)) : expr :=
  make "aws_elasticloadbalancingv2.ListenerAction"
    {| positional := [ ("status_code", Number) ];
       keyword_only := [ ("content_type", Text); ("message_body", Text) ];
       variadic := None |}
    [] kwargs.

(** [ListenerAction.forward(target_groups)]. *)
Definition ListenerAction_forward (args : list expr) : expr :=
  make "aws_elasticloadbalancingv2.ListenerAction"
    (positional_ [ ("target_groups", ListOf IApplicationTargetGroup) ]) args [].

(** [ListenerCondition.path_patterns(values)]. *)
Definition ListenerCondition_path_patterns (args : list expr) : expr :=
  make "aws_elasticloadbalancingv2.ListenerCondition"
    (positional_ [ ("values", ListOf Text) ]) args [].

(** [alb.add_listener(id, ...)]: the listener is a child of the balancer. *)
Definition add_listener (alb : value) : string → list (string * expr) → expr :=
  add alb "aws_elasticloadbalancingv2.ApplicationListener"
    [ ("default_action", InstanceOf [ "aws_elasticloadbalancingv2.ListenerAction" ]);
      ("port", Number);
      ("protocol", Enum "aws_elasticloadbalancingv2.ApplicationProtocol") ].

(** [listener.add_action(id, ...)]. *)
Definition add_action (listener : value) (id : string)
    (kwargs : list (string * expr)) : M unit :=
  invoke listener "add_action"
    {| positional := [ ("id", Text) ];
       keyword_only :=
         [ ("action", InstanceOf [ "aws_elasticloadbalancingv2.ListenerAction" ]);
           ("conditions",
            ListOf (InstanceOf [ "aws_elasticloadbalancingv2.ListenerCondition" ]));
           ("priority", Number) ];
       variadic := None |}
    [ str id ] kwargs.
End aws_elasticloadbalancingv2.

(** ** aws_ecs *)

Module aws_ecs.
Definition Protocol : string → expr := member "aws_ecs.Protocol".

Definition Cluster : path → string → list (string * expr) → expr :=
  new "aws_ecs.Cluster"
    [ ("cluster_name", Text); ("container_insights", Bool);
      ("enable_fargate_capacity_providers", Bool); ("vpc", IVpc) ].

Definition FargateTaskDefinition : path → string → list (string * expr) → expr :=
  new "aws_ecs.FargateTaskDefinition"
    [ ("cpu", Number); ("execution_role", IRole); ("family", Text);
      ("memory_limit_mib", Number); ("task_role", IRole) ].

(** [ContainerImage.from_ecr_repository(repository, tag)]. *)
Definition ContainerImage_from_ecr_repository (args : list expr) : expr :=
  make "aws_ecs.ContainerImage"
    (positional_ [ ("repository", IRepository); ("tag", Text) ]) args [].

(** [ecs.Secret.from_secrets_manager(secret, field)]. *)
Definition Secret_from_secrets_manager (args : list expr) : expr :=
  make "aws_ecs.Secret"
    (positional_ [ ("secret", ISecret); ("field", Text) ]) args [].

(** [LogDrivers.aws_logs(stream_prefix=..., log_group=...)]. *)
Definition LogDrivers_aws_logs (kwargs : list (string * expr)) : expr :=
  make "aws_ecs.LogDriver"
    (keyword_only_ [ ("log_group", ILogGroup); ("stream_prefix", Text) ])
    [] kwargs.

Definition HealthCheck (kwargs : list (string * expr)) : expr :=
  make "aws_ecs.HealthCheck"
    (keyword_only_
       [ ("command", ListOf Text); ("interval", Duration_);
         ("retries", Number); ("start_period", Duration_);
         ("timeout", Duration_) ])
    [] kwargs.

Definition PortMapping (kwargs : list (string * expr)) : expr :=
  make "aws_ecs.PortMapping"
    (keyword_only_
       [ ("container_port", Number); ("protocol", Enum "aws_ecs.Protocol") ])
    [] kwargs.

Definition DeploymentCircuitBreaker (kwargs : list (string * expr)) : expr :=
  make "aws_ecs.DeploymentCircuitBreaker"
    (keyword_only_ [ ("rollback", Bool) ]) [] kwargs.

(** [task_definition.add_container(id, ...)]: the container is a child of
    the task definition. *)
Definition add_container (task_definition : value)
    : string → list (string * expr) → expr :=
  add task_definition "aws_ecs.ContainerDefinition"
    [ ("container_name", Text);
      ("environment", DictOf Text);
      ("health_check", InstanceOf [ "aws_ecs.HealthCheck" ]);
      ("image", InstanceOf [ "aws_ecs.ContainerImage" ]);
      ("logging", InstanceOf [ "aws_ecs.LogDriver" ]);
      ("secrets", DictOf (InstanceOf [ "aws_ecs.Secret" ])) ].

(** [container.add_port_mappings(mapping, ...)]. *)
Definition add_port_mappings (container : value) (args : list expr) : M unit :=
  invoke container "add_port_mappings"
    (variadic_ (InstanceOf [ "aws_ecs.PortMapping" ])) args [].

(** The service has no [enable_logging]. *)
Definition FargateService : path → string → list (string * expr) → expr :=
  new "aws_ecs.FargateService"
    [ ("assign_public_ip", Bool);
      ("circuit_breaker", InstanceOf [ "aws_ecs.DeploymentCircuitBreaker" ]);
      ("cluster", ICluster);
      ("desired_count", Number);
      ("enable_execute_command", Bool);
      ("service_name", Text);
      ("task_definition", InstanceOf [ "aws_ecs.FargateTaskDefinition" ]);
      ("vpc_subnets", InstanceOf [ "aws_ec2.SubnetSelection" ]) ].

(** [service.attach_to_application_target_group(target_group)]. *)
Definition attach_to_application_target_group (service : value)
    (args : list expr) : M unit :=
  invoke service "attach_to_application_target_group"
    (positional_ [ ("target_group", IApplicationTargetGroup) ]) args [].

(** [service.auto_scale_task_count(min_capacity=..., max_capacity=...)]:
    the scalable target is a child of the service. *)
Definition auto_scale_task_count (service : value)
    (kwargs : list (string * expr)) : expr :=
  add service "aws_ecs.ScalableTaskCount"
    [ ("max_capacity", Number); ("min_capacity", Number) ]
    "TaskCount" kwargs.

Definition scaling : signature :=
  {| positional := [ ("id", Text) ];
     keyword_only :=
       [ ("scale_in_cooldown", Duration_); ("scale_out_cooldown", Duration_);
         ("target_utilization_percent", Number) ];
     variadic := None |}.

(** [scaling.scale_on_cpu_utilization(id, ...)]. *)
Definition scale_on_cpu_utilization (target : value) (id : string)
    (kwargs : list (string * expr)) : M unit :=
  invoke target "scale_on_cpu_utilization" scaling [ str id ] kwargs.

(** [scaling.scale_on_memory_utilization(id, ...)]. *)
Definition scale_on_memory_utilization (target : value) (id : string)
    (kwargs : list (string * expr)) : M unit :=
  invoke target "scale_on_memory_utilization" scaling [ str id ] kwargs.
End aws_ecs.

(** ** aws_cloudwatch, aws_cloudwatch_actions *)

Module aws_cloudwatch.
Definition ComparisonOperator : string → expr :=
  member "aws_cloudwatch.ComparisonOperator".
Definition TreatMissingData : string → expr :=
  member "aws_cloudwatch.TreatMissingData".

Definition Metric (kwargs : list (string * expr)) : expr :=
  make "aws_cloudwatch.Metric"
    (keyword_only_
       [ ("dimensions_map", DictOf Text); ("metric_name", Text);
         ("namespace", Text); ("period", Duration_); ("statistic", Text) ])
    [] kwargs.

Definition Alarm : path → string → list (string * expr) → expr :=
  new "aws_cloudwatch.Alarm"
    [ ("alarm_description", Text); ("alarm_name", Text);
      ("comparison_operator", Enum "aws_cloudwatch.ComparisonOperator");
      ("evaluation_periods", Number); ("metric", IMetric);
      ("threshold", Number);
      ("treat_missing_data", Enum "aws_cloudwatch.TreatMissingData") ].

Definition Dashboard : path → string → list (string * expr) → expr :=
  new "aws_cloudwatch.Dashboard" [ ("dashboard_name", Text) ].

Definition GraphWidget (kwargs : list (string * expr)) : expr :=
  make "aws_cloudwatch.GraphWidget"
    (keyword_only_
       [ ("height", Number); ("left", ListOf IMetric);
         ("right", ListOf IMetric); ("title", Text); ("width", Number) ])
    [] kwargs.

(** [alarm.add_alarm_action(action, ...)]. *)
Definition add_alarm_action (alarm : value) (args : list expr) : M unit :=
  invoke alarm "add_alarm_action"
    (variadic_ (InstanceOf [ "aws_cloudwatch_actions.SnsAction" ])) args [].

(** [dashboard.add_widgets(widget, ...)]. *)
Definition add_widgets (dashboard : value) (args : list expr) : M unit :=
  invoke dashboard "add_widgets"
    (variadic_ (InstanceOf [ "aws_cloudwatch.GraphWidget" ])) args [].
End aws_cloudwatch.

Module aws_cloudwatch_actions.
(** [cw_actions.SnsAction(topic)]. *)
Definition SnsAction (args : list expr) : expr :=
  make "aws_cloudwatch_actions.SnsAction" (positional_ [ ("topic", ITopic) ])
    args [].
End aws_cloudwatch_actions.

(** * The stacks that call the library as it is not *)

(** ** stacks/storage_stack.py *)

Module StorageStack.
Module kms := aws_kms.
Module s3 := aws_s3.
Module sns := aws_sns.
Module sqs := aws_sqs.

Record t := {
  node : path;
  env : option Environment;
  kms_key : value;
  document_bucket : value;
  logs_bucket : value;
  notification_topic : value;
  notification_queue : value;
  notification_dlq : value;
  reminder_queue : value;
  reminder_dlq : value;
  tags : Tags.t;
}.

(** The imports of the module. *)
Definition imports : result unit :=
  aws_cdk.from_import
    [ "Stack"; "aws_s3"; "aws_sns"; "aws_sqs"; "aws_kms"; "RemovalPolicy";
      "Tags" ].

(** The statements of [__init__]. *)
Definition body (scope : path) (construct_id : string)
    (env : option Environment) : M t :=
  let self := child scope construct_id in
  (* KMS key for encryption *)
  kms_key ←
    kms.Key self "StorageKey"
      [ ("description",
         str "KMS key for NZ Companies Register storage encryption");
        ("enable_key_rotation", boolean true);
        ("removal_policy", aws_cdk.RemovalPolicy "RETAIN") ];
  (* S3 bucket for document storage *)
  document_bucket ←
    s3.Bucket self "DocumentBucket"
      [ ("bucket_name", str "nz-companies-register-documents");
        ("versioned", boolean true);
        ("encryption", s3.BucketEncryption "KMS");
        ("encryption_key", var kms_key);
        ("block_public_access", s3.BlockPublicAccess "BLOCK_ALL");
        ("removal_policy", aws_cdk.RemovalPolicy "RETAIN");
        ("lifecycle_rules",
         list_
           [ s3.LifecycleRule
               [ ("id", str "TransitionToIA");
                 ("enabled", boolean true);
                 ("transitions",
                  list_
                    [ s3.Transition
                        [ ("storage_class", s3.StorageClass "INFREQUENT_ACCESS");
                          ("transition_after", int 30) ];
                      s3.Transition
                        [ ("storage_class", s3.StorageClass "GLACIER");
                          ("transition_after", int 90) ] ]) ] ]) ];
  (* S3 bucket for application logs *)
  logs_bucket ←
    s3.Bucket self "LogsBucket"
      [ ("bucket_name", str "nz-companies-register-logs");
        ("versioned", boolean false);
        ("encryption", s3.BucketEncryption "KMS");
        ("encryption_key", var kms_key);
        ("block_public_access", s3.BlockPublicAccess "BLOCK_ALL");
        ("removal_policy", aws_cdk.RemovalPolicy "RETAIN");
        ("lifecycle_rules",
         list_
           [ s3.LifecycleRule
               [ ("id", str "DeleteOldLogs");
                 ("enabled", boolean true);
                 (* Keep logs for 1 year *)
                 ("expiration", int 365) ] ]) ];
  (* SNS topic for notifications *)
  notification_topic ←
    sns.Topic self "NotificationTopic"
      [ ("topic_name", str "nz-companies-register-notifications");
        ("display_name", str "NZ Companies Register Notifications");
        ("master_key", var kms_key) ];
  (* SQS queue for processing notifications *)
  notification_queue ←
    sqs.Queue self "NotificationQueue"
      [ ("queue_name", str "nz-companies-register-notifications");
        ("visibility_timeout_seconds", int 300);
        ("message_retention_period_seconds", int 1209600); (* 14 days *)
        ("encryption", sqs.QueueEncryption "KMS");
        ("encryption_master_key", var kms_key) ];
  (* Dead letter queue for failed notifications *)
  notification_dlq ←
    sqs.Queue self "NotificationDLQ"
      [ ("queue_name", str "nz-companies-register-notifications-dlq");
        ("visibility_timeout_seconds", int 300);
        ("message_retention_period_seconds", int 1209600); (* 14 days *)
        ("encryption", sqs.QueueEncryption "KMS");
        ("encryption_master_key", var kms_key) ];
  (* Subscribe queue to topic *)
  sns.add_subscription notification_topic
    [ sns.SqsSubscription [ var notification_queue ]
        [ ("dead_letter_queue", var notification_dlq) ] ];;
  (* SQS queue for annual return reminders *)
  reminder_queue ←
    sqs.Queue self "ReminderQueue"
      [ ("queue_name", str "nz-companies-register-reminders");
        ("visibility_timeout_seconds", int 300);
        ("message_retention_period_seconds", int 1209600); (* 14 days *)
        ("encryption", sqs.QueueEncryption "KMS");
        ("encryption_master_key", var kms_key) ];
  (* Dead letter queue for failed reminders *)
  reminder_dlq ←
    sqs.Queue self "ReminderDLQ"
      [ ("queue_name", str "nz-companies-register-reminders-dlq");
        ("visibility_timeout_seconds", int 300);
        ("message_retention_period_seconds", int 1209600); (* 14 days *)
        ("encryption", sqs.QueueEncryption "KMS");
        ("encryption_master_key", var kms_key) ];
  (* Add tags *)
  let tags := Tags.add "Project" "NZ Companies Register" [] in
  let tags := Tags.add "Environment" "Production" tags in
  let tags := Tags.add "Component" "Storage" tags in
  mret
    {| node := self;
       env := env;
       kms_key := kms_key;
       document_bucket := document_bucket;
       logs_bucket := logs_bucket;
       notification_topic := notification_topic;
       notification_queue := notification_queue;
       notification_dlq := notification_dlq;
       reminder_queue := reminder_queue;
       reminder_dlq := reminder_dlq;
       tags := tags |}.

(** [StorageStack(scope, construct_id, env=env)]: the class is there once
    its module is loaded. *)
Definition __init__ (scope : path) (construct_id : string)
    (env : option Environment) : M t :=
  lift imports;; body scope construct_id env.
End StorageStack.


(** ** stacks/security_stack.py *)

Module SecurityStack.
Module iam := aws_iam.
Module kms := aws_kms.
Module secretsmanager := aws_secretsmanager.
Module ssm := aws_ssm.

Record t := {
  node : path;
  env : option Environment;
  application_key : value;
  application_key_alias : value;
  ecs_task_role : value;
  ecs_execution_role : value;
  s3_policy : value;
  dynamodb_policy : value;
  sns_sqs_policy : value;
  secrets_policy : value;
  jwt_secret : value;
  external_api_keys : value;
  tags : Tags.t;
}.

(** The imports of the module. *)
Definition imports : result unit :=
  aws_cdk.from_import
    [ "Stack"; "aws_iam"; "aws_kms"; "aws_secretsmanager"; "aws_ssm";
      "RemovalPolicy"; "Tags" ].

(** The statements of [__init__]. *)
Definition body (scope : path) (construct_id : string)
    (env : option Environment) : M t :=
  let self := child scope construct_id in
  (* KMS key for application-wide encryption *)
  application_key ←
    kms.Key self "ApplicationKey"
      [ ("description",
         str "KMS key for NZ Companies Register application encryption");
        ("enable_key_rotation", boolean true);
        ("removal_policy", aws_cdk.RemovalPolicy "RETAIN") ];
  (* KMS alias for easier reference *)
  application_key_alias ←
    kms.Alias self "ApplicationKeyAlias"
      [ ("alias_name", str "alias/nz-companies-register");
        ("target_key", var application_key) ];
  (* IAM role for ECS tasks *)
  ecs_task_role ←
    iam.Role self "EcsTaskRole"
      [ ("role_name", str "nz-companies-register-ecs-task-role");
        ("assumed_by",
         iam.ServicePrincipal
           [ str "ecs-tasks.amazonaws.com" ]);
        ("description", str "Role for NZ Companies Register ECS tasks") ];
  (* IAM role for ECS task execution *)
  ecs_execution_role ←
    iam.Role self "EcsExecutionRole"
      [ ("role_name", str "nz-companies-register-ecs-execution-role");
        ("assumed_by",
         iam.ServicePrincipal
           [ str "ecs-tasks.amazonaws.com" ]);
        ("managed_policies",
         list_
           [ iam.ManagedPolicy_from_aws_managed_policy_name
               [ str "service-role/AmazonECSTaskExecutionRolePolicy" ] ]);
        ("description", str "Role for ECS task execution") ];
  (* IAM policies for application services *)
  s3_policy ←
    iam.PolicyDocument
      [ ("statements",
         list_
           [ iam.PolicyStatement
               [ ("effect", iam.Effect "ALLOW");
                 ("actions",
                  list_
                    [ str "s3:GetObject";
                      str "s3:PutObject";
                      str "s3:DeleteObject";
                      str "s3:ListBucket" ]);
                 ("resources",
                  list_
                    [ str "arn:aws:s3:::nz-companies-register-documents";
                      str "arn:aws:s3:::nz-companies-register-documents/*" ]) ] ]) ];
  dynamodb_policy ←
    iam.PolicyDocument
      [ ("statements",
         list_
           [ iam.PolicyStatement
               [ ("effect", iam.Effect "ALLOW");
                 ("actions",
                  list_
                    [ str "dynamodb:GetItem";
                      str "dynamodb:PutItem";
                      str "dynamodb:UpdateItem";
                      str "dynamodb:DeleteItem";
                      str "dynamodb:Query";
                      str "dynamodb:Scan" ]);
                 ("resources",
                  list_
                    [ str
                        "arn:aws:dynamodb:*:*:table/nz-companies-register-documents";
                      str
                        "arn:aws:dynamodb:*:*:table/nz-companies-register-documents/index/*"
                    ]) ] ]) ];
  sns_sqs_policy ←
    iam.PolicyDocument
      [ ("statements",
         list_
           [ iam.PolicyStatement
               [ ("effect", iam.Effect "ALLOW");
                 ("actions",
                  list_
                    [ str "sns:Publish";
                      str "sqs:SendMessage";
                      str "sqs:ReceiveMessage";
                      str "sqs:DeleteMessage";
                      str "sqs:GetQueueAttributes" ]);
                 ("resources",
                  list_
                    [ str "arn:aws:sns:*:*:nz-companies-register-notifications";
                      str "arn:aws:sqs:*:*:nz-companies-register-notifications";
                      str "arn:aws:sqs:*:*:nz-companies-register-reminders" ]) ] ]) ];
  secrets_policy ←
    iam.PolicyDocument
      [ ("statements",
         list_
           [ iam.PolicyStatement
               [ ("effect", iam.Effect "ALLOW");
                 ("actions",
                  list_
                    [ str "secretsmanager:GetSecretValue";
                      str "secretsmanager:DescribeSecret" ]);
                 ("resources",
                  list_
                    [ str
                        "arn:aws:secretsmanager:*:*:secret:nz-companies-register/*"
                    ]) ] ]) ];
  (* Attach policies to ECS task role *)
  _ ← iam.Policy self "S3Policy"
    [ ("policy_name", str "nz-companies-register-s3-policy");
      ("policy_document", var s3_policy);
      ("roles",
       list_
         [ var ecs_task_role ]) ];
  _ ← iam.Policy self "DynamoDBPolicy"
    [ ("policy_name", str "nz-companies-register-dynamodb-policy");
      ("policy_document", var dynamodb_policy);
      ("roles",
       list_
         [ var ecs_task_role ]) ];
  _ ← iam.Policy self "SNSSQSPolicy"
    [ ("policy_name", str "nz-companies-register-sns-sqs-policy");
      ("policy_document", var sns_sqs_policy);
      ("roles",
       list_
         [ var ecs_task_role ]) ];
  _ ← iam.Policy self "SecretsPolicy"
    [ ("policy_name", str "nz-companies-register-secrets-policy");
      ("policy_document", var secrets_policy);
      ("roles",
       list_
         [ var ecs_task_role ]) ];
  (* Add KMS permissions to ECS task role *)
  kms.grant_encrypt_decrypt application_key
    [ var ecs_task_role ];;
  (* Add CloudWatch permissions *)
  iam.add_managed_policy ecs_task_role
    [ iam.ManagedPolicy_from_aws_managed_policy_name
          [ str "CloudWatchAgentServerPolicy" ] ];;
  (* Add X-Ray permissions for tracing *)
  iam.add_managed_policy ecs_task_role
    [ iam.ManagedPolicy_from_aws_managed_policy_name
          [ str "AWSXRayDaemonWriteAccess" ] ];;
  (* ECS execution role additional permissions *)
  iam.add_to_policy ecs_execution_role
    [ iam.PolicyStatement
          [ ("effect", iam.Effect "ALLOW");
            ("actions",
             list_
               [ str "secretsmanager:GetSecretValue";
                 str "ssm:GetParameters";
                 str "ssm:GetParameter";
                 str "kms:Decrypt" ]);
            ("resources",
             list_
               [ str "arn:aws:secretsmanager:*:*:secret:nz-companies-register/*";
                 str "arn:aws:ssm:*:*:parameter/nz-companies-register/*";
                 var (attribute application_key "key_arn") ]) ] ];;
  (* System parameters for configuration *)
  jwt_secret ←
    secretsmanager.Secret self "JWTSecret"
      [ ("secret_name", str "nz-companies-register/jwt-secret");
        ("description", str "JWT signing secret for NZ Companies Register");
        ("generate_secret_string",
         secretsmanager.SecretStringGenerator
           [ ("secret_string_template",
              str ("{" ++ quoted "jwt_secret" ++ ": " ++
                   quoted EmptyString ++ "}"));
             ("generate_string_key", str "jwt_secret");
             ("exclude_characters", str (" " ++ dquote ++ "\/@'"));
             ("password_length", int 64) ]) ];
  (* API keys for external services *)
  external_api_keys ←
    secretsmanager.Secret self "ExternalAPIKeys"
      [ ("secret_name", str "nz-companies-register/external-api-keys");
        ("description", str "API keys for external services");
        ("generate_secret_string",
         secretsmanager.SecretStringGenerator
           [ ("secret_string_template",
              str ("{" ++ quoted "nz_post_api_key" ++ ": " ++ quoted EmptyString ++
                   ", " ++ quoted "auth0_client_secret" ++ ": " ++
                   quoted EmptyString ++ "}"));
             ("generate_string_key", str "placeholder");
             ("exclude_characters", str (" " ++ dquote ++ "\/@'"));
             ("password_length", int 32) ]) ];
  (* SSM parameters for non-sensitive configuration *)
  _ ← ssm.StringParameter self "AppEnvironment"
    [ ("parameter_name", str "/nz-companies-register/environment");
      ("string_value", str "production");
      ("description", str "Application environment") ];
  _ ← ssm.StringParameter self "AppVersion"
    [ ("parameter_name", str "/nz-companies-register/version");
      ("string_value", str "1.0.0");
      ("description", str "Application version") ];
  _ ← ssm.StringParameter self "JWTIssuer"
    [ ("parameter_name", str "/nz-companies-register/jwt-issuer");
      ("string_value", str "https://nz-companies-register.auth0.com/");
      ("description", str "JWT issuer URL") ];
  _ ← ssm.StringParameter self "CORSOrigins"
    [ ("parameter_name", str "/nz-companies-register/cors-origins");
      ("string_value",
       str "https://companies.govt.nz,https://www.companies.govt.nz");
      ("description", str "Allowed CORS origins") ];
  (* Add tags *)
  (* Add tags *)
  let tags := Tags.add "Project" "NZ Companies Register" [] in
  let tags := Tags.add "Environment" "Production" tags in
  let tags := Tags.add "Component" "Security" tags in
  mret
    {| node := self;
       env := env;
       application_key := application_key;
       application_key_alias := application_key_alias;
       ecs_task_role := ecs_task_role;
       ecs_execution_role := ecs_execution_role;
       s3_policy := s3_policy;
       dynamodb_policy := dynamodb_policy;
       sns_sqs_policy := sns_sqs_policy;
       secrets_policy := secrets_policy;
       jwt_secret := jwt_secret;
       external_api_keys := external_api_keys;
       tags := tags |}.

(** [SecurityStack(scope, construct_id, env=env)]: the class is there once
    its module is loaded. *)
Definition __init__ (scope : path) (construct_id : string)
    (env : option Environment) : M t :=
  lift imports;; body scope construct_id env.
End SecurityStack.

(** ** stacks/compute_stack.py *)

(** A VPC and a database cluster handed to a call, and the secret of the
    cluster. *)
Definition of_vpc (vpc : ec2.Vpc.t) : value :=
  PyConstruct "aws_ec2.Vpc" (ec2.Vpc.node vpc).

Definition of_secret (database : rds.DatabaseCluster.t) : value :=
  PyConstruct "aws_secretsmanager.SecretTargetAttachment"
    (rds.DatabaseCluster.secret database).

Module ComputeStack.
Module ecs := aws_ecs.
Module ecr := aws_ecr.
Module logs := aws_logs.
Module iam := aws_iam.
(** The module asks for [aws_elbv2] and calls it [elbv2]; what it uses of
    it is what [aws_elasticloadbalancingv2] has. *)
Module elbv2 := aws_elasticloadbalancingv2.

Record t := {
  node : path;
  env : option Environment;
  backend_repository : value;
  frontend_repository : value;
  cluster : value;
  alb : value;
  backend_target_group : value;
  frontend_target_group : value;
  http_listener : value;
  https_listener : value;
  backend_log_group : value;
  frontend_log_group : value;
  backend_task_definition : value;
  frontend_task_definition : value;
  backend_container : value;
  frontend_container : value;
  backend_service : value;
  frontend_service : value;
  backend_scaling : value;
  frontend_scaling : value;
  tags : Tags.t;
}.

(** The imports of the module. *)
Definition imports : result unit :=
  aws_cdk.from_import
    [ "Stack"; "aws_ec2"; "aws_ecs"; "aws_ecr"; "aws_elbv2"; "aws_logs";
      "aws_iam"; "aws_rds"; "aws_s3"; "Duration"; "RemovalPolicy"; "Tags" ].

(** The statements of [__init__]. *)
Definition body (scope : path) (construct_id : string) (vpc : ec2.Vpc.t)
    (database : rds.DatabaseCluster.t) (document_bucket : value)
    (env : option Environment) : M t :=
  let self := child scope construct_id in
  (* ECR repositories *)
  backend_repository ←
    ecr.Repository self "BackendRepository"
      [ ("repository_name", str "nz-companies-register/backend");
        ("image_scan_on_push", boolean true);
        ("lifecycle_rules",
         list_
           [ ecr.LifecycleRule
               [ ("description", str "Keep last 10 images");
                 ("max_image_count", int 10) ] ]) ];
  frontend_repository ←
    ecr.Repository self "FrontendRepository"
      [ ("repository_name", str "nz-companies-register/frontend");
        ("image_scan_on_push", boolean true);
        ("lifecycle_rules",
         list_
           [ ecr.LifecycleRule
               [ ("description", str "Keep last 10 images");
                 ("max_image_count", int 10) ] ]) ];
  (* ECS cluster *)
  cluster ←
    ecs.Cluster self "Cluster"
      [ ("cluster_name", str "nz-companies-register-cluster");
        ("vpc", var (of_vpc vpc));
        ("enable_fargate_capacity_providers", boolean true);
        ("container_insights", boolean true) ];
  (* Application Load Balancer *)
  alb ←
    elbv2.ApplicationLoadBalancer self "ALB"
      [ ("load_balancer_name", str "nz-companies-register-alb");
        ("vpc", var (of_vpc vpc));
        ("internet_facing", boolean true);
        ("security_group", token (ec2.Vpc.vpc_default_security_group vpc)) ];
  (* Target groups *)
  backend_target_group ←
    elbv2.ApplicationTargetGroup self "BackendTargetGroup"
      [ ("target_group_name", str "nz-companies-backend-tg");
        ("port", int 8080);
        ("protocol", elbv2.ApplicationProtocol "HTTP");
        ("vpc", var (of_vpc vpc));
        ("target_type", elbv2.TargetType "IP");
        ("health_check",
         elbv2.HealthCheck
           [ ("enabled", boolean true);
             ("path", str "/api/actuator/health");
             ("interval", duration (Duration.seconds 30));
             ("timeout", duration (Duration.seconds 5));
             ("healthy_threshold_count", int 2);
             ("unhealthy_threshold_count", int 5) ]) ];
  frontend_target_group ←
    elbv2.ApplicationTargetGroup self "FrontendTargetGroup"
      [ ("target_group_name", str "nz-companies-frontend-tg");
        ("port", int 80);
        ("protocol", elbv2.ApplicationProtocol "HTTP");
        ("vpc", var (of_vpc vpc));
        ("target_type", elbv2.TargetType "IP");
        ("health_check",
         elbv2.HealthCheck
           [ ("enabled", boolean true);
             ("path", str "/");
             ("interval", duration (Duration.seconds 30));
             ("timeout", duration (Duration.seconds 5));
             ("healthy_threshold_count", int 2);
             ("unhealthy_threshold_count", int 5) ]) ];
  (* ALB listeners *)
  http_listener ←
    elbv2.add_listener alb "HTTPListener"
      [ ("port", int 80);
        ("protocol", elbv2.ApplicationProtocol "HTTP");
        ("default_action",
         elbv2.ListenerAction_redirect
           [ ("protocol", str "HTTPS");
             ("port", str "443");
             ("permanent", boolean true) ]) ];
  https_listener ←
    elbv2.add_listener alb "HTTPSListener"
      [ ("port", int 443);
        ("protocol", elbv2.ApplicationProtocol "HTTPS");
        ("default_action",
         elbv2.ListenerAction_fixed_response
           [ ("status_code", int 404);
             ("content_type", str "text/plain");
             ("message_body", str "Not Found") ]) ];
  (* Listener rules *)
  elbv2.add_action https_listener "BackendRule"
    [ ("priority", int 100);
      ("conditions",
       list_
         [ elbv2.ListenerCondition_path_patterns
             [ list_
                   [ str "/api/*" ] ] ]);
      ("action",
       elbv2.ListenerAction_forward
         [ list_
               [ var backend_target_group ] ]) ];;
  elbv2.add_action https_listener "FrontendRule"
    [ ("priority", int 200);
      ("conditions",
       list_
         [ elbv2.ListenerCondition_path_patterns
             [ list_
                   [ str "/*" ] ] ]);
      ("action",
       elbv2.ListenerAction_forward
         [ list_
               [ var frontend_target_group ] ]) ];;
  (* CloudWatch Log Groups *)
  backend_log_group ←
    logs.LogGroup self "BackendLogGroup"
      [ ("log_group_name", str "/ecs/nz-companies-register-backend");
        ("retention", logs.RetentionDays "ONE_MONTH");
        ("removal_policy", aws_cdk.RemovalPolicy "DESTROY") ];
  frontend_log_group ←
    logs.LogGroup self "FrontendLogGroup"
      [ ("log_group_name", str "/ecs/nz-companies-register-frontend");
        ("retention", logs.RetentionDays "ONE_MONTH");
        ("removal_policy", aws_cdk.RemovalPolicy "DESTROY") ];
  (* ECS Task Definitions *)
  backend_task_definition ←
    ecs.FargateTaskDefinition self "BackendTaskDefinition"
      [ ("family", str "nz-companies-register-backend");
        ("memory_limit_mib", int 2048);
        ("cpu", int 1024);
        ("execution_role",
         iam.Role_from_role_name self "BackendExecutionRole"
           [ str "nz-companies-register-ecs-execution-role" ]);
        ("task_role",
         iam.Role_from_role_name self "BackendTaskRole"
           [ str "nz-companies-register-ecs-task-role" ]) ];
  frontend_task_definition ←
    ecs.FargateTaskDefinition self "FrontendTaskDefinition"
      [ ("family", str "nz-companies-register-frontend");
        ("memory_limit_mib", int 512);
        ("cpu", int 256);
        ("execution_role",
         iam.Role_from_role_name self "FrontendExecutionRole"
           [ str "nz-companies-register-ecs-execution-role" ]) ];
  (* Container definitions *)
  backend_container ←
    ecs.add_container backend_task_definition "BackendContainer"
      [ ("image",
         ecs.ContainerImage_from_ecr_repository
           [ var backend_repository;
             str "latest" ]);
        ("container_name", str "nz-companies-register-backend");
        ("environment",
         dict_
           [ ("SPRING_PROFILES_ACTIVE", str "production");
             ("AWS_REGION", token (stack_region self env));
             ("DB_HOST", token (rds.DatabaseCluster.cluster_endpoint_hostname database));
             ("DB_PORT", str "5432");
             ("DB_NAME", str "nz_companies_register");
             ("S3_DOCUMENT_BUCKET", var (attribute document_bucket "bucket_name")) ]);
        ("secrets",
         dict_
           [ ("DB_USERNAME", ecs.Secret_from_secrets_manager
                [ var (of_secret database);
                  str "username" ]);
             ("DB_PASSWORD", ecs.Secret_from_secrets_manager
                [ var (of_secret database);
                  str "password" ]) ]);
        ("logging",
         ecs.LogDrivers_aws_logs
           [ ("stream_prefix", str "backend");
             ("log_group", var backend_log_group) ]);
        ("health_check",
         ecs.HealthCheck
           [ ("command",
              list_
                [ str "CMD-SHELL";
                  str "curl -f http://localhost:8080/api/actuator/health || exit 1" ]);
             ("interval", duration (Duration.seconds 30));
             ("timeout", duration (Duration.seconds 5));
             ("retries", int 3);
             ("start_period", duration (Duration.seconds 60)) ]) ];
  ecs.add_port_mappings backend_container
    [ ecs.PortMapping
          [ ("container_port", int 8080);
            ("protocol", ecs.Protocol "TCP") ] ];;
  frontend_container ←
    ecs.add_container frontend_task_definition "FrontendContainer"
      [ ("image",
         ecs.ContainerImage_from_ecr_repository
           [ var frontend_repository;
             str "latest" ]);
        ("container_name", str "nz-companies-register-frontend");
        ("logging",
         ecs.LogDrivers_aws_logs
           [ ("stream_prefix", str "frontend");
             ("log_group", var frontend_log_group) ]);
        ("health_check",
         ecs.HealthCheck
           [ ("command",
              list_
                [ str "CMD-SHELL";
                  str "curl -f http://localhost:80 || exit 1" ]);
             ("interval", duration (Duration.seconds 30));
             ("timeout", duration (Duration.seconds 5));
             ("retries", int 3);
             ("start_period", duration (Duration.seconds 30)) ]) ];
  ecs.add_port_mappings frontend_container
    [ ecs.PortMapping
          [ ("container_port", int 80);
            ("protocol", ecs.Protocol "TCP") ] ];;
  (* ECS Services *)
  backend_service ←
    ecs.FargateService self "BackendService"
      [ ("service_name", str "nz-companies-register-backend");
        ("cluster", var cluster);
        ("task_definition", var backend_task_definition);
        ("desired_count", int 2);
        ("assign_public_ip", boolean false);
        ("vpc_subnets",
         aws_ec2.SubnetSelection
           [ ("subnet_type", aws_ec2.SubnetType "PRIVATE_WITH_EGRESS") ]);
        ("enable_execute_command", boolean true);
        ("enable_logging", boolean true);
        ("circuit_breaker",
         ecs.DeploymentCircuitBreaker
           [ ("rollback", boolean true) ]) ];
  frontend_service ←
    ecs.FargateService self "FrontendService"
      [ ("service_name", str "nz-companies-register-frontend");
        ("cluster", var cluster);
        ("task_definition", var frontend_task_definition);
        ("desired_count", int 2);
        ("assign_public_ip", boolean false);
        ("vpc_subnets",
         aws_ec2.SubnetSelection
           [ ("subnet_type", aws_ec2.SubnetType "PRIVATE_WITH_EGRESS") ]);
        ("enable_execute_command", boolean true);
        ("enable_logging", boolean true);
        ("circuit_breaker",
         ecs.DeploymentCircuitBreaker
           [ ("rollback", boolean true) ]) ];
  (* Attach services to target groups *)
  ecs.attach_to_application_target_group backend_service
    [ var backend_target_group ];;
  ecs.attach_to_application_target_group frontend_service
    [ var frontend_target_group ];;
  (* Auto Scaling *)
  backend_scaling ←
    ecs.auto_scale_task_count backend_service
      [ ("min_capacity", int 2);
        ("max_capacity", int 10) ];
  ecs.scale_on_cpu_utilization backend_scaling "BackendCPUScaling"
    [ ("target_utilization_percent", int 70);
      ("scale_in_cooldown", duration (Duration.minutes 5));
      ("scale_out_cooldown", duration (Duration.minutes 5)) ];;
  ecs.scale_on_memory_utilization backend_scaling "BackendMemoryScaling"
    [ ("target_utilization_percent", int 80);
      ("scale_in_cooldown", duration (Duration.minutes 5));
      ("scale_out_cooldown", duration (Duration.minutes 5)) ];;
  frontend_scaling ←
    ecs.auto_scale_task_count frontend_service
      [ ("min_capacity", int 2);
        ("max_capacity", int 6) ];
  ecs.scale_on_cpu_utilization frontend_scaling "FrontendCPUScaling"
    [ ("target_utilization_percent", int 70);
      ("scale_in_cooldown", duration (Duration.minutes 5));
      ("scale_out_cooldown", duration (Duration.minutes 5)) ];;
  (* Add tags *)
  (* Add tags *)
  let tags := Tags.add "Project" "NZ Companies Register" [] in
  let tags := Tags.add "Environment" "Production" tags in
  let tags := Tags.add "Component" "Compute" tags in
  mret
    {| node := self;
       env := env;
       backend_repository := backend_repository;
       frontend_repository := frontend_repository;
       cluster := cluster;
       alb := alb;
       backend_target_group := backend_target_group;
       frontend_target_group := frontend_target_group;
       http_listener := http_listener;
       https_listener := https_listener;
       backend_log_group := backend_log_group;
       frontend_log_group := frontend_log_group;
       backend_task_definition := backend_task_definition;
       frontend_task_definition := frontend_task_definition;
       backend_container := backend_container;
       frontend_container := frontend_container;
       backend_service := backend_service;
       frontend_service := frontend_service;
       backend_scaling := backend_scaling;
       frontend_scaling := frontend_scaling;
       tags := tags |}.

(** [ComputeStack(scope, construct_id, vpc=..., database=...,
    document_bucket=..., env=env)]: the class is there once its module is
    loaded. *)
Definition __init__ (scope : path) (construct_id : string) (vpc : ec2.Vpc.t)
    (database : rds.DatabaseCluster.t) (document_bucket : value)
    (env : option Environment) : M t :=
  lift imports;; body scope construct_id vpc database document_bucket env.
End ComputeStack.

(** ** stacks/monitoring_stack.py *)

Module MonitoringStack.
Module cloudwatch := aws_cloudwatch.
Module sns := aws_sns.
Module cw_actions := aws_cloudwatch_actions.

Record t := {
  node : path;
  env : option Environment;
  alert_topic : value;
  dashboard : value;
  tags : Tags.t;
}.

(** The imports of the module: those from the library, then the compute
    stack's module. *)
Definition imports : result unit :=
  then_
    (aws_cdk.from_import
       [ "Stack"; "aws_cloudwatch"; "aws_logs"; "aws_sns";
         "aws_cloudwatch_actions"; "aws_applicationautoscaling"; "Duration";
         "Tags" ])
    ComputeStack.imports.

(** Create application-level alarms *)
Definition create_application_alarms (self : t) (compute_stack : ComputeStack.t)
    : M unit :=
  (* Backend service alarms *)
  alarm ←
    cloudwatch.Alarm (node self) "BackendHighCPU"
      [ ("alarm_name", str "nz-companies-register-backend-high-cpu");
        ("alarm_description", str "Backend service CPU utilization is high");
        ("metric",
         cloudwatch.Metric
           [ ("namespace", str "AWS/ECS");
             ("metric_name", str "CPUUtilization");
             ("dimensions_map",
              dict_
                [ ("ServiceName",
                   var (attribute (ComputeStack.backend_service compute_stack)
                        "service_name"));
                  ("ClusterName",
                   var (attribute (ComputeStack.cluster compute_stack)
                        "cluster_name")) ]);
             ("statistic", str "Average");
             ("period", duration (Duration.minutes 5)) ]);
        ("threshold", int 80);
        ("evaluation_periods", int 2);
        ("comparison_operator",
         cloudwatch.ComparisonOperator "GREATER_THAN_THRESHOLD");
        ("treat_missing_data", cloudwatch.TreatMissingData "NOT_BREACHING") ];
  cloudwatch.add_alarm_action alarm
    [ cw_actions.SnsAction
          [ var (alert_topic self) ] ];;
  alarm ←
    cloudwatch.Alarm (node self) "BackendHighMemory"
      [ ("alarm_name", str "nz-companies-register-backend-high-memory");
        ("alarm_description", str "Backend service memory utilization is high");
        ("metric",
         cloudwatch.Metric
           [ ("namespace", str "AWS/ECS");
             ("metric_name", str "MemoryUtilization");
             ("dimensions_map",
              dict_
                [ ("ServiceName",
                   var (attribute (ComputeStack.backend_service compute_stack)
                        "service_name"));
                  ("ClusterName",
                   var (attribute (ComputeStack.cluster compute_stack)
                        "cluster_name")) ]);
             ("statistic", str "Average");
             ("period", duration (Duration.minutes 5)) ]);
        ("threshold", int 85);
        ("evaluation_periods", int 2);
        ("comparison_operator",
         cloudwatch.ComparisonOperator "GREATER_THAN_THRESHOLD");
        ("treat_missing_data", cloudwatch.TreatMissingData "NOT_BREACHING") ];
  cloudwatch.add_alarm_action alarm
    [ cw_actions.SnsAction
          [ var (alert_topic self) ] ];;
  (* Task count alarms *)
  alarm ←
    cloudwatch.Alarm (node self) "BackendTaskCountLow"
      [ ("alarm_name", str "nz-companies-register-backend-task-count-low");
        ("alarm_description", str "Backend service task count is below minimum");
        ("metric",
         cloudwatch.Metric
           [ ("namespace", str "AWS/ECS");
             ("metric_name", str "RunningTaskCount");
             ("dimensions_map",
              dict_
                [ ("ServiceName",
                   var (attribute (ComputeStack.backend_service compute_stack)
                        "service_name"));
                  ("ClusterName",
                   var (attribute (ComputeStack.cluster compute_stack)
                        "cluster_name")) ]);
             ("statistic", str "Average");
             ("period", duration (Duration.minutes 1)) ]);
        ("threshold", int 1);
        ("evaluation_periods", int 2);
        ("comparison_operator",
         cloudwatch.ComparisonOperator "LESS_THAN_THRESHOLD");
        ("treat_missing_data", cloudwatch.TreatMissingData "BREACHING") ];
  cloudwatch.add_alarm_action alarm
    [ cw_actions.SnsAction
          [ var (alert_topic self) ] ].

(** Create infrastructure-level alarms *)
Definition create_infrastructure_alarms (self : t)
    (compute_stack : ComputeStack.t) : M unit :=
  (* ALB alarms *)
  alarm ←
    cloudwatch.Alarm (node self) "ALBHighLatency"
      [ ("alarm_name", str "nz-companies-register-alb-high-latency");
        ("alarm_description", str "ALB target response time is high");
        ("metric",
         cloudwatch.Metric
           [ ("namespace", str "AWS/ApplicationELB");
             ("metric_name", str "TargetResponseTime");
             ("dimensions_map",
              dict_
                [ ("LoadBalancer",
                   var (attribute (ComputeStack.alb compute_stack)
                        "load_balancer_full_name")) ]);
             ("statistic", str "Average");
             ("period", duration (Duration.minutes 5)) ]);
        ("threshold", float 1);
        ("evaluation_periods", int 2);
        ("comparison_operator",
         cloudwatch.ComparisonOperator "GREATER_THAN_THRESHOLD");
        ("treat_missing_data", cloudwatch.TreatMissingData "NOT_BREACHING") ];
  cloudwatch.add_alarm_action alarm
    [ cw_actions.SnsAction
          [ var (alert_topic self) ] ];;
  alarm ←
    cloudwatch.Alarm (node self) "ALBHighErrorRate"
      [ ("alarm_name", str "nz-companies-register-alb-high-error-rate");
        ("alarm_description", str "ALB 5xx error rate is high");
        ("metric",
         cloudwatch.Metric
           [ ("namespace", str "AWS/ApplicationELB");
             ("metric_name", str "HTTPCode_Target_5XX_Count");
             ("dimensions_map",
              dict_
                [ ("LoadBalancer",
                   var (attribute (ComputeStack.alb compute_stack)
                        "load_balancer_full_name")) ]);
             ("statistic", str "Sum");
             ("period", duration (Duration.minutes 5)) ]);
        ("threshold", int 10);
        ("evaluation_periods", int 2);
        ("comparison_operator",
         cloudwatch.ComparisonOperator "GREATER_THAN_THRESHOLD");
        ("treat_missing_data", cloudwatch.TreatMissingData "NOT_BREACHING") ];
  cloudwatch.add_alarm_action alarm
    [ cw_actions.SnsAction
          [ var (alert_topic self) ] ];;
  (* ECS Cluster alarms *)
  alarm ←
    cloudwatch.Alarm (node self) "ECSClusterHighCPU"
      [ ("alarm_name", str "nz-companies-register-ecs-cluster-high-cpu");
        ("alarm_description", str "ECS cluster CPU reservation is high");
        ("metric",
         cloudwatch.Metric
           [ ("namespace", str "AWS/ECS");
             ("metric_name", str "CPUReservation");
             ("dimensions_map",
              dict_
                [ ("ClusterName",
                   var (attribute (ComputeStack.cluster compute_stack)
                        "cluster_name")) ]);
             ("statistic", str "Average");
             ("period", duration (Duration.minutes 5)) ]);
        ("threshold", int 80);
        ("evaluation_periods", int 2);
        ("comparison_operator",
         cloudwatch.ComparisonOperator "GREATER_THAN_THRESHOLD");
        ("treat_missing_data", cloudwatch.TreatMissingData "NOT_BREACHING") ];
  cloudwatch.add_alarm_action alarm
    [ cw_actions.SnsAction
          [ var (alert_topic self) ] ].

(** Create database-specific alarms *)
Definition create_database_alarms (self : t) : M unit :=
  (* RDS CPU utilization *)
  alarm ←
    cloudwatch.Alarm (node self) "RDSHighCPU"
      [ ("alarm_name", str "nz-companies-register-rds-high-cpu");
        ("alarm_description", str "RDS CPU utilization is high");
        ("metric",
         cloudwatch.Metric
           [ ("namespace", str "AWS/RDS");
             ("metric_name", str "CPUUtilization");
             ("dimensions_map",
              dict_
                [ ("DBClusterIdentifier", str "nz-companies-register-db") ]);
             ("statistic", str "Average");
             ("period", duration (Duration.minutes 5)) ]);
        ("threshold", int 80);
        ("evaluation_periods", int 2);
        ("comparison_operator",
         cloudwatch.ComparisonOperator "GREATER_THAN_THRESHOLD");
        ("treat_missing_data", cloudwatch.TreatMissingData "NOT_BREACHING") ];
  cloudwatch.add_alarm_action alarm
    [ cw_actions.SnsAction
          [ var (alert_topic self) ] ];;
  (* RDS connection count *)
  alarm ←
    cloudwatch.Alarm (node self) "RDSHighConnections"
      [ ("alarm_name", str "nz-companies-register-rds-high-connections");
        ("alarm_description", str "RDS connection count is high");
        ("metric",
         cloudwatch.Metric
           [ ("namespace", str "AWS/RDS");
             ("metric_name", str "DatabaseConnections");
             ("dimensions_map",
              dict_
                [ ("DBClusterIdentifier", str "nz-companies-register-db") ]);
             ("statistic", str "Average");
             ("period", duration (Duration.minutes 5)) ]);
        ("threshold", int 160);
        ("evaluation_periods", int 2);
        ("comparison_operator",
         cloudwatch.ComparisonOperator "GREATER_THAN_THRESHOLD");
        ("treat_missing_data", cloudwatch.TreatMissingData "NOT_BREACHING") ];
  cloudwatch.add_alarm_action alarm
    [ cw_actions.SnsAction
          [ var (alert_topic self) ] ];;
  (* DynamoDB throttling *)
  alarm ←
    cloudwatch.Alarm (node self) "DynamoDBThrottling"
      [ ("alarm_name", str "nz-companies-register-dynamodb-throttling");
        ("alarm_description", str "DynamoDB is experiencing throttling");
        ("metric",
         cloudwatch.Metric
           [ ("namespace", str "AWS/DynamoDB");
             ("metric_name", str "ReadThrottledEvents");
             ("dimensions_map",
              dict_
                [ ("TableName", str "nz-companies-register-documents") ]);
             ("statistic", str "Sum");
             ("period", duration (Duration.minutes 5)) ]);
        ("threshold", int 0);
        ("evaluation_periods", int 1);
        ("comparison_operator",
         cloudwatch.ComparisonOperator "GREATER_THAN_THRESHOLD");
        ("treat_missing_data", cloudwatch.TreatMissingData "NOT_BREACHING") ];
  cloudwatch.add_alarm_action alarm
    [ cw_actions.SnsAction
          [ var (alert_topic self) ] ].

(** Create custom business metrics *)
Definition create_custom_metrics (self : t) : M unit :=
  (* Company registration rate *)
  alarm ←
    cloudwatch.Alarm (node self) "LowRegistrationRate"
      [ ("alarm_name", str "nz-companies-register-low-registration-rate");
        ("alarm_description", str "Company registration rate is unusually low");
        ("metric",
         cloudwatch.Metric
           [ ("namespace", str "NZCompaniesRegister/Business");
             ("metric_name", str "CompanyRegistrations");
             ("statistic", str "Sum");
             ("period", duration (Duration.hours 1)) ]);
        ("threshold", int 5);
        ("evaluation_periods", int 2);
        ("comparison_operator",
         cloudwatch.ComparisonOperator "LESS_THAN_THRESHOLD");
        ("treat_missing_data", cloudwatch.TreatMissingData "BREACHING") ];
  cloudwatch.add_alarm_action alarm
    [ cw_actions.SnsAction
          [ var (alert_topic self) ] ];;
  (* Search response time *)
  alarm ←
    cloudwatch.Alarm (node self) "SearchResponseTimeSLA"
      [ ("alarm_name", str "nz-companies-register-search-response-time-sla");
        ("alarm_description", str "Search response time exceeds SLA");
        ("metric",
         cloudwatch.Metric
           [ ("namespace", str "NZCompaniesRegister/Performance");
             ("metric_name", str "SearchResponseTime");
             ("statistic", str "Average");
             ("period", duration (Duration.minutes 5)) ]);
        ("threshold", int 500);
        ("evaluation_periods", int 2);
        ("comparison_operator",
         cloudwatch.ComparisonOperator "GREATER_THAN_THRESHOLD");
        ("treat_missing_data", cloudwatch.TreatMissingData "NOT_BREACHING") ];
  cloudwatch.add_alarm_action alarm
    [ cw_actions.SnsAction
          [ var (alert_topic self) ] ].

(** Setup dashboard widgets; the tags are added at its end. *)
Definition setup_dashboard_widgets (self : t) (compute_stack : ComputeStack.t)
    : M t :=
  (* Application performance widgets *)
  cloudwatch.add_widgets (dashboard self)
    [ cloudwatch.GraphWidget
          [ ("title", str "Backend Service Metrics");
            ("left",
             list_
               [ cloudwatch.Metric
                   [ ("namespace", str "AWS/ECS");
                     ("metric_name", str "CPUUtilization");
                     ("dimensions_map",
                      dict_
                        [ ("ServiceName",
                           var (attribute (ComputeStack.backend_service compute_stack)
                                "service_name"));
                          ("ClusterName",
                           var (attribute (ComputeStack.cluster compute_stack)
                                "cluster_name")) ]);
                     ("statistic", str "Average");
                     ("period", duration (Duration.minutes 5)) ];
                 cloudwatch.Metric
                   [ ("namespace", str "AWS/ECS");
                     ("metric_name", str "MemoryUtilization");
                     ("dimensions_map",
                      dict_
                        [ ("ServiceName",
                           var (attribute (ComputeStack.backend_service compute_stack)
                                "service_name"));
                          ("ClusterName",
                           var (attribute (ComputeStack.cluster compute_stack)
                                "cluster_name")) ]);
                     ("statistic", str "Average");
                     ("period", duration (Duration.minutes 5)) ] ]);
            ("right",
             list_
               [ cloudwatch.Metric
                   [ ("namespace", str "AWS/ECS");
                     ("metric_name", str "RunningTaskCount");
                     ("dimensions_map",
                      dict_
                        [ ("ServiceName",
                           var (attribute (ComputeStack.backend_service compute_stack)
                                "service_name"));
                          ("ClusterName",
                           var (attribute (ComputeStack.cluster compute_stack)
                                "cluster_name")) ]);
                     ("statistic", str "Average");
                     ("period", duration (Duration.minutes 1)) ] ]);
            ("width", int 12);
            ("height", int 6) ];
      cloudwatch.GraphWidget
          [ ("title", str "ALB Metrics");
            ("left",
             list_
               [ cloudwatch.Metric
                   [ ("namespace", str "AWS/ApplicationELB");
                     ("metric_name", str "TargetResponseTime");
                     ("dimensions_map",
                      dict_
                        [ ("LoadBalancer",
                           var (attribute (ComputeStack.alb compute_stack)
                                "load_balancer_full_name")) ]);
                     ("statistic", str "Average");
                     ("period", duration (Duration.minutes 5)) ] ]);
            ("right",
             list_
               [ cloudwatch.Metric
                   [ ("namespace", str "AWS/ApplicationELB");
                     ("metric_name", str "RequestCount");
                     ("dimensions_map",
                      dict_
                        [ ("LoadBalancer",
                           var (attribute (ComputeStack.alb compute_stack)
                                "load_balancer_full_name")) ]);
                     ("statistic", str "Sum");
                     ("period", duration (Duration.minutes 5)) ] ]);
            ("width", int 12);
            ("height", int 6) ] ];;
  (* Database performance widgets *)
  cloudwatch.add_widgets (dashboard self)
    [ cloudwatch.GraphWidget
          [ ("title", str "Database Metrics");
            ("left",
             list_
               [ cloudwatch.Metric
                   [ ("namespace", str "AWS/RDS");
                     ("metric_name", str "CPUUtilization");
                     ("dimensions_map",
                      dict_
                        [ ("DBClusterIdentifier", str "nz-companies-register-db") ]);
                     ("statistic", str "Average");
                     ("period", duration (Duration.minutes 5)) ] ]);
            ("right",
             list_
               [ cloudwatch.Metric
                   [ ("namespace", str "AWS/RDS");
                     ("metric_name", str "DatabaseConnections");
                     ("dimensions_map",
                      dict_
                        [ ("DBClusterIdentifier", str "nz-companies-register-db") ]);
                     ("statistic", str "Average");
                     ("period", duration (Duration.minutes 5)) ] ]);
            ("width", int 12);
            ("height", int 6) ] ];;
  (* Business metrics widgets *)
  cloudwatch.add_widgets (dashboard self)
    [ cloudwatch.GraphWidget
          [ ("title", str "Business Metrics");
            ("left",
             list_
               [ cloudwatch.Metric
                   [ ("namespace", str "NZCompaniesRegister/Business");
                     ("metric_name", str "CompanyRegistrations");
                     ("statistic", str "Sum");
                     ("period", duration (Duration.hours 1)) ];
                 cloudwatch.Metric
                   [ ("namespace", str "NZCompaniesRegister/Business");
                     ("metric_name", str "SearchRequests");
                     ("statistic", str "Sum");
                     ("period", duration (Duration.minutes 5)) ] ]);
            ("right",
             list_
               [ cloudwatch.Metric
                   [ ("namespace", str "NZCompaniesRegister/Performance");
                     ("metric_name", str "SearchResponseTime");
                     ("statistic", str "Average");
                     ("period", duration (Duration.minutes 5)) ] ]);
            ("width", int 12);
            ("height", int 6) ] ];;
  (* Add tags *)
  (* Add tags *)
  let tags := Tags.add "Project" "NZ Companies Register" (tags self) in
  let tags := Tags.add "Environment" "Production" tags in
  let tags := Tags.add "Component" "Monitoring" tags in
  mret
    {| node := node self;
       env := env self;
       alert_topic := alert_topic self;
       dashboard := dashboard self;
       tags := tags |}.

(** The statements of [__init__]. *)
Definition body (scope : path) (construct_id : string)
    (compute_stack : ComputeStack.t) (env : option Environment) : M t :=
  let node := child scope construct_id in
  (* SNS topic for alerts *)
  alert_topic ←
    sns.Topic node "AlertTopic"
      [ ("topic_name", str "nz-companies-register-alerts");
        ("display_name", str "NZ Companies Register Alerts") ];
  (* CloudWatch Dashboard *)
  dashboard ←
    cloudwatch.Dashboard node "Dashboard"
      [ ("dashboard_name", str "NZ-Companies-Register-Dashboard") ];
  let self :=
    {| node := node; env := env; alert_topic := alert_topic;
       dashboard := dashboard; tags := [] |} in
  (* Application metrics *)
  create_application_alarms self compute_stack;;
  create_infrastructure_alarms self compute_stack;;
  create_database_alarms self;;
  create_custom_metrics self;;
  setup_dashboard_widgets self compute_stack.

(** [MonitoringStack(scope, construct_id, compute_stack=..., env=env)]: the
    class is there once its module is loaded. *)
Definition __init__ (scope : path) (construct_id : string)
    (compute_stack : ComputeStack.t) (env : option Environment) : M t :=
  lift imports;; body scope construct_id compute_stack env.
End MonitoringStack.

(** ** The imports of stacks/vpc_stack.py and stacks/database_stack.py

    The two modules whose constructors are above import names the package
    has. *)

Module vpc_stack.
Definition imports : result unit :=
  aws_cdk.from_import [ "Stack"; "aws_ec2"; "Tags" ].
End vpc_stack.

Module database_stack.
Definition imports : result unit :=
  aws_cdk.from_import
    [ "Stack"; "aws_rds"; "aws_ec2"; "aws_secretsmanager"; "RemovalPolicy";
      "Tags"; "Duration" ].
End database_stack.

(** ** app.py *)

Module App.
Record t := {
  env : Environment;
  vpc_stack : VpcStack.t;
  security_stack : SecurityStack.t;
  database_stack : DatabaseStack.t;
  storage_stack : StorageStack.t;
  compute_stack : ComputeStack.t;
  monitoring_stack : MonitoringStack.t;
}.

(** The imports of the script, in their order: the stacks of the VPC, the
    database, the storage, the compute, the monitoring and the security. *)
Definition imports : result unit :=
  then_ vpc_stack.imports
    (then_ database_stack.imports
       (then_ StorageStack.imports
          (then_ ComputeStack.imports
             (then_ MonitoringStack.imports SecurityStack.imports)))).

(** [x or default] on an optional string: [None] and the empty string are
    both false. *)
Definition or_default (x : option string) (default : string) : string :=
  match x with
  | Some EmptyString | None => default
  | Some s => s
  end.

(** The script; [context] stands for [app.node.try_get_context]. *)
Definition app (context : gmap string string) : M t :=
  lift imports;;
  let scope : path := [] in
  let env :=
    {| account := context !! "account";
       region := or_default (context !! "region") "ap-southeast-2" |} in
  (* Core infrastructure *)
  let vpc_stack := VpcStack.__init__ scope "NzCompaniesVpc" (Some env) in
  security_stack ←
    SecurityStack.__init__ scope "NzCompaniesSecurity" (Some env);
  let database_stack :=
    DatabaseStack.__init__ scope "NzCompaniesDatabase" (VpcStack.vpc vpc_stack)
      (Some env) in
  storage_stack ← StorageStack.__init__ scope "NzCompaniesStorage" (Some env);
  (* Application infrastructure *)
  compute_stack ←
    ComputeStack.__init__ scope "NzCompaniesCompute"
      (VpcStack.vpc vpc_stack)
      (DatabaseStack.database database_stack)
      (StorageStack.document_bucket storage_stack)
      (Some env);
  (* Monitoring infrastructure *)
  monitoring_stack ←
    MonitoringStack.__init__ scope "NzCompaniesMonitoring" compute_stack
      (Some env);
  mret
    {| env := env;
       vpc_stack := vpc_stack;
       security_stack := security_stack;
       database_stack := database_stack;
       storage_stack := storage_stack;
       compute_stack := compute_stack;
       monitoring_stack := monitoring_stack |}.
End App.

(** ** tests/

    Every test class has a fixture, [template], that builds the stack under
    test in an application of its own and hands it to
    [Template.from_stack], the library's synthesis. A test method is run on
    what the fixture returns; when the fixture raises, the method is not
    run. *)

Module TestVpcStack.
Definition imports : result unit :=
  then_ (aws_cdk.from_import [ "App" ]) vpc_stack.imports.

Definition stack : M VpcStack.t :=
  lift imports;;
  let app : path := [] in
  mret (VpcStack.__init__ app "TestVpcStack" None).

Definition template {Template : Type} (from_stack : VpcStack.t → M Template)
    : M Template :=
  stack ≫= from_stack.
End TestVpcStack.

Module TestDatabaseStack.
Definition imports : result unit :=
  then_ (aws_cdk.from_import [ "App" ])
    (then_ vpc_stack.imports database_stack.imports).

Definition stack : M DatabaseStack.t :=
  lift imports;;
  let app : path := [] in
  let vpc_stack := VpcStack.__init__ app "TestVpcStack" None in
  mret (DatabaseStack.__init__ app "TestDatabaseStack" (VpcStack.vpc vpc_stack) None).

Definition template {Template : Type}
    (from_stack : DatabaseStack.t → M Template) : M Template :=
  stack ≫= from_stack.
End TestDatabaseStack.

Module TestStorageStack.
Definition imports : result unit :=
  then_ (aws_cdk.from_import [ "App" ]) StorageStack.imports.

Definition stack : M StorageStack.t :=
  lift imports;;
  let app : path := [] in
  StorageStack.__init__ app "TestStorageStack" None.

Definition template {Template : Type}
    (from_stack : StorageStack.t → M Template) : M Template :=
  stack ≫= from_stack.
End TestStorageStack.

(** A test method run with its fixture. *)
Definition run_test {Template : Type} (template : M Template)
    (test_method : Template → M unit) : M unit :=
  template ≫= test_method.


(** ** The provider's names of instance types *)

Module Declared.
Definition instance_class_name (c : ec2.InstanceClass) : string :=
  match c with
  | ec2.T3 => "t3"
  | ec2.M5 => "m5"
  | ec2.R5 => "r5"
  | ec2.R6G => "r6g"
  end.

Definition instance_size_name (s : ec2.InstanceSize) : string :=
  match s with
  | ec2.MICRO => "micro"
  | ec2.SMALL => "small"
  | ec2.MEDIUM => "medium"
  | ec2.LARGE => "large"
  | ec2.XLARGE => "xlarge"
  end.

(** The instance class of a database instance: [db.<class>.<size>]. *)
Definition db_instance_class (t : ec2.InstanceType.t) : string :=
  "db." ++ instance_class_name (ec2.InstanceType.instance_class t) ++ "." ++
  instance_size_name (ec2.InstanceType.instance_size t).

End Declared.

(** ** The declared security-group graph *)

(** Where traffic comes from or goes to: the internet, or the members of a
    security group. *)
Inductive endpoint :=
| Internet
| Group (node : path).

Definition source (p : ec2.Peer.t) : endpoint :=
  match p with
  | ec2.Peer.any_ipv4 => Internet
  | ec2.Peer.security_group node => Group node
  end.

(** [accepts s src dst]: a security group of the stack, [dst], has an
    ingress rule whose peer is [src]. *)
Definition accepts (s : VpcStack.t) (src dst : endpoint) : Prop :=
  ∃ sg r,
    sg ∈ VpcStack.security_groups s ∧
    dst = Group (ec2.SecurityGroup.node sg) ∧
    r ∈ ec2.SecurityGroup.ingress sg ∧
    source (ec2.IngressRule.peer r) = src.

(** [route s src via dst]: traffic from [src] is accepted by a chain of
    security groups that ends in [dst] and passes through [via], in order. *)
Inductive route (s : VpcStack.t) : endpoint → list endpoint → endpoint → Prop :=
| route_direct src dst :
    accepts s src dst → route s src [] dst
| route_through src hop via dst :
    accepts s src hop → route s hop via dst → route s src (hop :: via) dst.

(** The three groups of the stack, as endpoints. *)
Definition alb_group (s : VpcStack.t) : endpoint :=
  Group (ec2.SecurityGroup.node (VpcStack.alb_security_group s)).
Definition ecs_group (s : VpcStack.t) : endpoint :=
  Group (ec2.SecurityGroup.node (VpcStack.ecs_security_group s)).
Definition database_group (s : VpcStack.t) : endpoint :=
  Group (ec2.SecurityGroup.node (VpcStack.database_security_group s)).

(** The peer and port of a rule. *)
Definition peer_and_port (r : ec2.IngressRule.t) : ec2.Peer.t * ec2.Port.t :=
  (ec2.IngressRule.peer r, ec2.IngressRule.connection r).


(** ** Connections *)

(** The value of a decimal digit. *)
Definition digit (c : Ascii.ascii) : option Z :=
  let n := Z.of_nat (Ascii.nat_of_ascii c) in
  if ((48 <=? n)%Z && (n <=? 57)%Z)%bool then Some (n - 48) else None.

Fixpoint decimal_from (acc : Z) (s : string) : option Z :=
  match s with
  | EmptyString => Some acc
  | String c rest =>
      match digit c with
      | Some d => decimal_from (10 * acc + d) rest
      | None => None
      end
  end.

(** The number a string of decimal digits writes. *)
Definition decimal (s : string) : option Z :=
  match s with
  | EmptyString => None
  | _ => decimal_from 0 s
  end.

(** The [max_connections] parameter of the database cluster. *)
Definition max_connections (s : DatabaseStack.t) : option Z :=
  rds.ParameterGroup.parameters
    (rds.DatabaseCluster.parameter_group (DatabaseStack.database s))
    !! "max_connections" ≫= decimal.


(** ** Windows of the database cluster *)

(** The minutes since midnight a clock time [hh:mm] stands for. *)
Definition clock (s : string) : option Z :=
  if bool_decide (String.length s = 5%nat ∧ String.substring 2 1 s = ":") then
    h ← decimal (String.substring 0 2 s);
    m ← decimal (String.substring 3 2 s);
    if bool_decide (h < 24 ∧ m < 60)%Z then Some (60 * h + m)%Z else None
  else None.

(** A daily window [hh:mm-hh:mm], as its first and last minute. *)
Definition daily_window (s : string) : option (Z * Z) :=
  if bool_decide (String.length s = 11%nat ∧ String.substring 5 1 s = "-") then
    first ← clock (String.substring 0 5 s);
    last ← clock (String.substring 6 5 s);
    Some (first, last)
  else None.

(** A weekly window [ddd:hh:mm-ddd:hh:mm], as its two days and its daily
    window. *)
Definition weekly_window (s : string) : option (string * string * (Z * Z)) :=
  if bool_decide
       (String.length s = 19%nat ∧ String.substring 3 1 s = ":" ∧
        String.substring 13 1 s = ":") then
    w ← daily_window (String.substring 4 6 s ++ String.substring 14 5 s);
    Some (String.substring 0 3 s, String.substring 10 3 s, w)
  else None.

(** The key attributes of a table and of its indexes. *)
Definition key_attributes (tbl : dynamodb.Table.t) : list dynamodb.Attribute.t :=
  (dynamodb.Table.partition_key tbl :: dynamodb.Table.sort_key tbl ::
   List.concat
     (List.map
        (fun i => [ dynamodb.GlobalSecondaryIndex.partition_key i;
                    dynamodb.GlobalSecondaryIndex.sort_key i ])
        (dynamodb.Table.global_secondary_indexes tbl)))%list.

(** ** What a constructor has made *)

(** The constructs of a class in a tree, each with its node and the
    arguments it was made with. *)
Definition made (class : string) (t : tree)
    : list (path * list (string * value)) :=
  omap (λ e, match e with
             | Created class' node arguments =>
                 if String.eqb class class' then Some (node, arguments)
                 else None
             | Called _ _ _ => None
             end) t.

(** The values that the constructs of a class were given for a keyword. *)
Definition given (class keyword : string) (t : tree) : list value :=
  omap (λ c, argument_of keyword c.2) (made class t).

(** The methods called in a tree. *)
Definition called (t : tree) : list string :=
  omap (λ e, match e with
             | Called _ method _ => Some method
             | Created _ _ _ => None
             end) t.

(** Every value a tree holds: the arguments of its constructs and of its
    method calls. *)
Definition arguments_in (t : tree) : list value :=
  flat_map (λ e, match e with
                 | Created _ _ arguments => arguments.*2
                 | Called _ _ arguments => arguments.*2
                 end) t.

(** The objects of a class within a value, at any depth. *)
Fixpoint objects (class : string) (v : value) : list value :=
  match v with
  | PyList items => flat_map (objects class) items
  | PyDict entries => flat_map (λ kv, objects class kv.2) entries
  | PyObject class' fields =>
      ((if String.eqb class class' then [v] else []) ++
       flat_map (λ kv, objects class kv.2) fields)%list
  | _ => []
  end.

(** The dimensions of a metric. *)
Definition dimensions_of (metric : value) : list (string * value) :=
  match metric with
  | PyObject _ fields =>
      match argument_of "dimensions_map" fields with
      | Some (PyDict entries) => entries
      | _ => []
      end
  | _ => []
  end.

(** The dimensions of every metric of the alarms and widgets of a tree. *)
Definition dimensions (t : tree) : list (string * value) :=
  flat_map dimensions_of
    (flat_map (objects "aws_cloudwatch.Metric") (arguments_in t)).

(** The threshold the alarm of the given name was made with. *)
Definition threshold (alarm_name : string) (t : tree) : list value :=
  omap (λ c, match argument_of "alarm_name" c.2 with
             | Some (PyStr (Lit name)) =>
                 if String.eqb name alarm_name
                 then argument_of "threshold" c.2 else None
             | _ => None
             end)
    (made "aws_cloudwatch.Alarm" t).

(** The key the storage stack makes. *)
Definition storage_key (self : path) : event :=
  Created "aws_kms.Key" (child self "StorageKey")
    [ ("description",
       PyStr (Lit "KMS key for NZ Companies Register storage encryption"));
      ("enable_key_rotation", PyBool true);
      ("removal_policy", PyMember "RemovalPolicy" "RETAIN") ].

(** ** Proof steps *)

(** Membership in a list that is written out. *)
Ltac in_list :=
  repeat first [ apply list_elem_of_here | apply list_elem_of_further ].

(** Case analysis on a member of a list that is written out. *)
Ltac each_of H :=
  repeat (apply elem_of_cons in H as [-> | H]);
  try (lazymatch type of H with _ ∈ [] => by apply elem_of_nil in H end).

(** Membership in a list that is written out, at a place found by search. *)
Ltac find_in :=
  apply list_elem_of_here + (apply list_elem_of_further; find_in).

(** * Properties *)

(** ** Security groups *)

Lemma child_inj scope a b : child scope a = child scope b → a = b.
Proof.
  unfold child. intros H. apply app_inv_head in H. congruence.
Qed.

Section security_group_graph.
Variables (scope : path) (construct_id : string) (env : option Environment).

Local Abbreviation s := (VpcStack.__init__ scope construct_id env).
Local Abbreviation alb := (alb_group s).
Local Abbreviation ecs := (ecs_group s).
Local Abbreviation db := (database_group s).

(** A rule of a group of the stack is an edge of the graph. *)
Lemma accepts_rule sg r :
  sg ∈ VpcStack.security_groups s →
  r ∈ ec2.SecurityGroup.ingress sg →
  accepts s (source (ec2.IngressRule.peer r)) (Group (ec2.SecurityGroup.node sg)).
Proof. intros Hsg Hr. exists sg, r. auto. Qed.

Lemma internet_to_alb : accepts s Internet alb.
Proof.
  apply (accepts_rule (VpcStack.alb_security_group s)
           {| ec2.IngressRule.peer := ec2.Peer.any_ipv4;
              ec2.IngressRule.connection := ec2.Port.tcp 80;
              ec2.IngressRule.description := "Allow HTTP from internet" |});
    unfold s; cbn; in_list.
Qed.

Lemma alb_to_ecs : accepts s alb ecs.
Proof.
  apply (accepts_rule (VpcStack.ecs_security_group s)
           {| ec2.IngressRule.peer :=
                ec2.SecurityGroup.as_peer (VpcStack.alb_security_group s);
              ec2.IngressRule.connection := ec2.Port.tcp 8080;
              ec2.IngressRule.description := "Allow traffic from ALB" |});
    unfold s; cbn; in_list.
Qed.

Lemma ecs_to_db : accepts s ecs db.
Proof.
  apply (accepts_rule (VpcStack.database_security_group s)
           {| ec2.IngressRule.peer :=
                ec2.SecurityGroup.as_peer (VpcStack.ecs_security_group s);
              ec2.IngressRule.connection := ec2.Port.tcp 5432;
              ec2.IngressRule.description := "Allow PostgreSQL from ECS" |});
    unfold s; cbn; in_list.
Qed.

(** What each endpoint accepts traffic from. *)
Lemma accepts_inv src dst :
  accepts s src dst →
  (src = Internet ∧ dst = alb) ∨ (src = alb ∧ dst = ecs) ∨ (src = ecs ∧ dst = db).
Proof.
  intros (sg & r & Hsg & -> & Hr & <-).
  unfold s, VpcStack.security_groups in Hsg. cbn in Hsg.
  repeat (apply elem_of_cons in Hsg as [-> | Hsg]);
    [ | | | by apply elem_of_nil in Hsg ];
    cbn in Hr;
    repeat (apply elem_of_cons in Hr as [-> | Hr]);
    try (by apply elem_of_nil in Hr); cbn; auto.
Qed.

Lemma endpoints_distinct : alb ≠ ecs ∧ ecs ≠ db ∧ alb ≠ db.
Proof.
  unfold alb, ecs, db, s. cbn.
  repeat split; intros [= H]; apply child_inj in H; discriminate.
Qed.

(** Every route to the database group, from wherever it starts. *)
Lemma route_to_db_inv src via :
  route s src via db →
  (src = ecs ∧ via = []) ∨
  (src = alb ∧ via = [ecs]) ∨
  (src = Internet ∧ via = [alb; ecs]).
Proof.
  destruct endpoints_distinct as (Hae & Hed & Had).
  intros H. remember db as dst eqn:Hdst.
  induction H as [src dst Hacc | src hop via dst Hacc Hroute IH]; subst dst.
  - apply accepts_inv in Hacc as [[_ E] | [[_ E] | [-> _]]]; auto; congruence.
  - specialize (IH eq_refl).
    apply accepts_inv in Hacc as [[-> ->] | [[-> ->] | [-> ->]]];
      destruct IH as [[E ->] | [[E ->] | [E ->]]]; auto; try congruence;
      discriminate.
Qed.

(** C10. In the security-group graph the VPC stack declares, the database
    group's only ingress rule is TCP 5432 from the ECS group, the ECS
    group's only ingress rule is TCP 8080 from the ALB group, the ALB
    group's rules are TCP 80 and TCP 443 from any IPv4 address, no other
    group has a rule from any IPv4 address, no rule of the database group
    comes from the internet, and every route from the internet to the
    database group passes through the ALB group and then the ECS group. *)
Theorem database_reached_only_through_alb_and_ecs :
  List.map peer_and_port
    (ec2.SecurityGroup.ingress (VpcStack.database_security_group s)) =
    [ (ec2.SecurityGroup.as_peer (VpcStack.ecs_security_group s),
       ec2.Port.tcp 5432) ] ∧
  List.map peer_and_port
    (ec2.SecurityGroup.ingress (VpcStack.ecs_security_group s)) =
    [ (ec2.SecurityGroup.as_peer (VpcStack.alb_security_group s),
       ec2.Port.tcp 8080) ] ∧
  List.map peer_and_port
    (ec2.SecurityGroup.ingress (VpcStack.alb_security_group s)) =
    [ (ec2.Peer.any_ipv4, ec2.Port.tcp 80);
      (ec2.Peer.any_ipv4, ec2.Port.tcp 443) ] ∧
  (∀ sg, sg ∈ VpcStack.security_groups s →
     (∃ r, r ∈ ec2.SecurityGroup.ingress sg ∧
           ec2.IngressRule.peer r = ec2.Peer.any_ipv4) →
     sg = VpcStack.alb_security_group s) ∧
  ¬ accepts s Internet db ∧
  (∃ via, route s Internet via db) ∧
  (∀ via, route s Internet via db → via = [alb; ecs]).
Proof.
  destruct endpoints_distinct as (Hae & Hed & Had).
  split_and!; try reflexivity.
  - intros sg Hsg (r & Hr & Hpeer).
    unfold s, VpcStack.security_groups in Hsg. cbn in Hsg.
    repeat (apply elem_of_cons in Hsg as [-> | Hsg]);
      [ reflexivity | | | by apply elem_of_nil in Hsg ];
      cbn in Hr;
      repeat (apply elem_of_cons in Hr as [-> | Hr]);
      try (by apply elem_of_nil in Hr); discriminate.
  - intros Hacc.
    apply accepts_inv in Hacc as [[_ E] | [[E _] | [E _]]]; try discriminate.
    congruence.
  - exists [alb; ecs].
    apply route_through; [ apply internet_to_alb | ].
    apply route_through; [ apply alb_to_ecs | ].
    apply route_direct, ecs_to_db.
  - intros via Hroute.
    apply route_to_db_inv in Hroute as [[E _] | [[E _] | [_ ->]]];
      [ discriminate | discriminate | reflexivity ].
Qed.

End security_group_graph.

(** ** Database *)

(** C3. The database stack declares a cluster whose writer and reader are
    both of instance class db.r6g.large and not publicly accessible, with
    backups kept for 30 days in the window 03:00-04:00, storage encryption
    and deletion protection; and a table with partition key document_id and
    sort key version, AWS-managed encryption, pay-per-request billing and
    point-in-time recovery. *)
Theorem database_parameters
    (scope : path) (construct_id : string) (vpc : ec2.Vpc.t)
    (env : option Environment) :
  let s := DatabaseStack.__init__ scope construct_id vpc env in
  let db := DatabaseStack.database s in
  let table := DatabaseStack.document_table s in
  List.map rds.ClusterInstance.id (rds.DatabaseCluster.instances db) =
    [ "Writer"; "Reader1" ] ∧
  Forall
    (fun i =>
       rds.ClusterInstance.instance_type i =
         ec2.InstanceType.of_ ec2.R6G ec2.LARGE ∧
       Declared.db_instance_class (rds.ClusterInstance.instance_type i) =
         "db.r6g.large" ∧
       rds.ClusterInstance.publicly_accessible i = false)
    (rds.DatabaseCluster.instances db) ∧
  rds.DatabaseCluster.backup db =
    {| rds.BackupProps.retention := Duration.days 30;
       rds.BackupProps.preferred_window := "03:00-04:00" |} ∧
  Duration.to_days (rds.BackupProps.retention (rds.DatabaseCluster.backup db)) = 30 ∧
  rds.DatabaseCluster.storage_encrypted db = true ∧
  rds.DatabaseCluster.deletion_protection db = true ∧
  dynamodb.Table.partition_key table =
    {| dynamodb.Attribute.name := "document_id";
       dynamodb.Attribute.type := dynamodb.STRING |} ∧
  dynamodb.Table.sort_key table =
    {| dynamodb.Attribute.name := "version";
       dynamodb.Attribute.type := dynamodb.STRING |} ∧
  dynamodb.Table.encryption table = dynamodb.AWS_MANAGED ∧
  dynamodb.Table.billing_mode table = dynamodb.PAY_PER_REQUEST ∧
  dynamodb.Table.point_in_time_recovery table = true.
Proof.
  cbn zeta. split_and!; try reflexivity.
  repeat constructor.
Qed.

(** ** Storage *)

(** C5. The storage stack declares no bucket, queue or topic: its
    constructor makes the KMS key, with key rotation enabled, and raises
    when it makes the first transition of the document bucket's lifecycle
    rule, which it gives the number 30 where the library takes a
    [Duration]. This holds for every scope, id and environment. *)
Theorem storage_stack_raises_at_its_first_transition
    (scope : path) (construct_id : string) (env : option Environment) :
  StorageStack.__init__ scope construct_id env =
    ([ storage_key (child scope construct_id) ],
     Raise (TypeError "aws_s3.Transition" (wrong_type "transition_after"))).
Proof. reflexivity. Qed.

(** ** Tests *)

(** C1. No test of the storage stack gets to its assertions: the fixture
    raises while it builds the stack, after the KMS key and before any
    bucket, whatever the synthesis and the test method are. The fixtures of
    the VPC and database tests build their stacks. *)
Theorem storage_tests_stop_in_their_fixture
    (Template : Type) (from_stack : StorageStack.t → M Template)
    (test_method : Template → M unit) :
  run_test (TestStorageStack.template from_stack) test_method =
    ([ storage_key ["TestStorageStack"] ],
     Raise (TypeError "aws_s3.Transition" (wrong_type "transition_after"))) ∧
  TestVpcStack.stack = ([], Ok (VpcStack.__init__ [] "TestVpcStack" None)) ∧
  TestDatabaseStack.stack =
    ([], Ok (DatabaseStack.__init__ [] "TestDatabaseStack"
              (VpcStack.vpc (VpcStack.__init__ [] "TestVpcStack" None)) None)).
Proof. split_and!; reflexivity. Qed.

(** ** IAM roles *)

(** C4. The security stack declares the two roles, with the names the
    compute stack's task definitions ask for, and raises at its first
    policy, which it gives a keyword the library does not have. The compute
    stack imports no role: its module does not load, and its statements
    raise at the load balancer, before any task definition. *)
Theorem roles_are_declared_and_never_imported
    (scope scope' : path) (construct_id construct_id' : string)
    (env env' : option Environment) (vpc : ec2.Vpc.t)
    (database : rds.DatabaseCluster.t) (document_bucket : value) :
  let security := SecurityStack.__init__ scope construct_id env in
  let compute :=
    ComputeStack.body scope' construct_id' vpc database document_bucket env' in
  security.2 =
    Raise (TypeError "aws_iam.Policy" (unexpected_keyword "policy_document")) ∧
  given "aws_iam.Role" "role_name" security.1 =
    [ PyStr (Lit "nz-companies-register-ecs-task-role");
      PyStr (Lit "nz-companies-register-ecs-execution-role") ] ∧
  ComputeStack.__init__ scope' construct_id' vpc database document_bucket env' =
    ([], Raise (ImportError "aws_cdk" "aws_elbv2")) ∧
  compute.2 =
    Raise (TypeError "aws_elasticloadbalancingv2.ApplicationLoadBalancer"
             (wrong_type "security_group")) ∧
  made "aws_iam.ImportedRole" compute.1 = [] ∧
  made "aws_ecs.FargateTaskDefinition" compute.1 = [].
Proof. cbn zeta. split_and!; reflexivity. Qed.

(** ** Autoscaling *)

(** C7. The compute stack declares no service and no scaling: its module
    asks the library for [aws_elbv2], which the library does not have, so
    the constructor raises before its first statement; and the statements
    themselves raise at the load balancer, which is given the id of a
    security group where the library takes the group, after the two
    repositories and the cluster. *)
Theorem no_service_or_scaling_is_declared
    (scope : path) (construct_id : string) (env : option Environment)
    (vpc : ec2.Vpc.t) (database : rds.DatabaseCluster.t)
    (document_bucket : value) :
  let compute :=
    ComputeStack.body scope construct_id vpc database document_bucket env in
  ComputeStack.__init__ scope construct_id vpc database document_bucket env =
    ([], Raise (ImportError "aws_cdk" "aws_elbv2")) ∧
  compute.2 =
    Raise (TypeError "aws_elasticloadbalancingv2.ApplicationLoadBalancer"
             (wrong_type "security_group")) ∧
  created compute.1 =
    [ ("aws_ecr.Repository", child (child scope construct_id) "BackendRepository");
      ("aws_ecr.Repository", child (child scope construct_id) "FrontendRepository");
      ("aws_ecs.Cluster", child (child scope construct_id) "Cluster") ] ∧
  called compute.1 = [].
Proof. cbn zeta. split_and!; reflexivity. Qed.

(** ** Wiring *)

(** C6. The script builds no stack and passes no construct: of its
    imports, those of the VPC, database and storage stacks load, and that
    of the compute stack raises, for every context. *)
Theorem app_stops_at_its_imports (context : gmap string string) :
  App.app context = ([], Raise (ImportError "aws_cdk" "aws_elbv2")) ∧
  vpc_stack.imports = Ok () ∧
  database_stack.imports = Ok () ∧
  StorageStack.imports = Ok () ∧
  ComputeStack.imports = Raise (ImportError "aws_cdk" "aws_elbv2") ∧
  MonitoringStack.imports = Raise (ImportError "aws_cdk" "aws_elbv2") ∧
  SecurityStack.imports = Ok ().
Proof. split_and!; reflexivity. Qed.

(** ** Tags *)

(** C8. The VPC stack and the database stack carry the three tags. The
    constructors of the four other stacks raise before they add a tag. *)
Theorem tags_of_the_stacks_that_are_built
    (scope : path) (construct_id : string) (env : option Environment)
    (vpc : ec2.Vpc.t) (database : rds.DatabaseCluster.t)
    (document_bucket : value) (compute_stack : ComputeStack.t) :
  VpcStack.tags (VpcStack.__init__ scope construct_id env) ≡ₚ
    [ ("Project", "NZ Companies Register"); ("Environment", "Production");
      ("Component", "Networking") ] ∧
  DatabaseStack.tags (DatabaseStack.__init__ scope construct_id vpc env) ≡ₚ
    [ ("Project", "NZ Companies Register"); ("Environment", "Production");
      ("Component", "Database") ] ∧
  (SecurityStack.__init__ scope construct_id env).2 =
    Raise (TypeError "aws_iam.Policy" (unexpected_keyword "policy_document")) ∧
  (StorageStack.__init__ scope construct_id env).2 =
    Raise (TypeError "aws_s3.Transition" (wrong_type "transition_after")) ∧
  (ComputeStack.__init__ scope construct_id vpc database document_bucket env).2 =
    Raise (ImportError "aws_cdk" "aws_elbv2") ∧
  (MonitoringStack.__init__ scope construct_id compute_stack env).2 =
    Raise (ImportError "aws_cdk" "aws_elbv2").
Proof. split_and!; reflexivity. Qed.

(** ** Connections alarm *)

(** C9. The statements of the monitoring stack give the high-connections
    alarm the threshold 160, which is 80 percent of the [max_connections]
    of the database stack's parameter group, 200. The alarm is never
    declared: the constructor raises before its first statement, because
    the module imports the compute stack's. *)
Theorem high_connections_alarm_is_never_declared
    (scope scope' : path) (construct_id construct_id' : string)
    (vpc : ec2.Vpc.t) (env env' : option Environment)
    (compute_stack : ComputeStack.t) :
  let statements :=
    MonitoringStack.body scope construct_id compute_stack env in
  max_connections (DatabaseStack.__init__ scope' construct_id' vpc env') =
    Some 200 ∧
  threshold "nz-companies-register-rds-high-connections" statements.1 =
    [ PyInt 160 ] ∧
  160 = 80 * 200 / 100 ∧
  MonitoringStack.__init__ scope construct_id compute_stack env =
    ([], Raise (ImportError "aws_cdk" "aws_elbv2")).
Proof. cbn zeta. split_and!; reflexivity. Qed.

(** ** Dimensions of the monitored metrics *)

(** C2. The statements of the monitoring stack name the database cluster
    and the table by the names the database stack declares them with, and
    the service, the cluster and the load balancer by attributes of the
    compute stack's constructs. No alarm and no widget is declared: the
    constructor raises before its first statement, because the module
    imports the compute stack's. *)
Theorem monitoring_dimensions_are_never_declared
    (scope scope' : path) (construct_id construct_id' : string)
    (vpc : ec2.Vpc.t) (env env' : option Environment)
    (compute_stack : ComputeStack.t) :
  let statements :=
    MonitoringStack.body scope construct_id compute_stack env in
  let database := DatabaseStack.__init__ scope' construct_id' vpc env' in
  (∀ d, d ∈ dimensions statements.1 →
     d ∈ [ ("DBClusterIdentifier",
            PyStr (Lit (rds.DatabaseCluster.cluster_identifier
                          (DatabaseStack.database database))));
           ("TableName",
            PyStr (Lit (dynamodb.Table.table_name
                          (DatabaseStack.document_table database))));
           ("ServiceName",
            attribute (ComputeStack.backend_service compute_stack) "service_name");
           ("ClusterName",
            attribute (ComputeStack.cluster compute_stack) "cluster_name");
           ("LoadBalancer",
            attribute (ComputeStack.alb compute_stack)
              "load_balancer_full_name") ]) ∧
  MonitoringStack.__init__ scope construct_id compute_stack env =
    ([], Raise (ImportError "aws_cdk" "aws_elbv2")) ∧
  (∀ context, (App.app context).1 = []).
Proof.
  cbn zeta. split_and!; try reflexivity.
  intros d Hd. vm_compute in Hd.
  each_of Hd; vm_compute; find_in.
Qed.

(** ** Further properties *)


(** X18. The cluster takes its credentials from the stack's secret, its
    parameter group is for the cluster's engine and is the one of every
    instance, the daily backup window ends no later than the weekly
    maintenance window begins, and the key attributes of the document
    table and of its one index are distinct string attributes. *)
Theorem database_parts_belong_together
    (scope : path) (construct_id : string) (vpc : ec2.Vpc.t)
    (env : option Environment) :
  let s := DatabaseStack.__init__ scope construct_id vpc env in
  let db := DatabaseStack.database s in
  let table := DatabaseStack.document_table s in
  rds.DatabaseCluster.credentials db =
    rds.from_secret (DatabaseStack.database_secret s) ∧
  rds.ParameterGroup.engine (rds.DatabaseCluster.parameter_group db) =
    rds.DatabaseCluster.engine db ∧
  (∀ i, i ∈ rds.DatabaseCluster.instances db →
     rds.ClusterInstance.parameter_group i =
       rds.DatabaseCluster.parameter_group db) ∧
  (∃ first last day first' last',
     daily_window (rds.BackupProps.preferred_window (rds.DatabaseCluster.backup db)) =
       Some (first, last) ∧
     weekly_window (rds.DatabaseCluster.preferred_maintenance_window db) =
       Some (day, day, (first', last')) ∧
     (first < last ≤ first')%Z ∧ (first' < last')%Z) ∧
  dynamodb.GlobalSecondaryIndex.index_name <$>
    dynamodb.Table.global_secondary_indexes table = [ "CompanyIdIndex" ] ∧
  NoDup (dynamodb.Attribute.name <$> key_attributes table) ∧
  (∀ a, a ∈ key_attributes table →
     dynamodb.Attribute.type a = dynamodb.STRING).
Proof.
  cbn zeta. split_and!; try reflexivity.
  - intros i Hi. cbn in Hi. each_of Hi; reflexivity.
  - exists 180, 240, "sun", 240, 300. split_and!; try reflexivity; done.
  - apply (bool_decide_unpack _). vm_compute. exact I.
  - intros a Ha. cbn in Ha. each_of Ha; reflexivity.
Qed.
